(** * The AD FS collector of windows_exporter

    A shallow embedding of [internal/collector/adfs/adfs.go] and of the parts
    of its surroundings it talks to: the Prometheus client library
    (descriptors, constant metrics), Go's [error] values, the typed
    performance-counter collector of [internal/pdh] and the scrape round of
    the collector registry.

    Go's [float64] is the kernel's binary64 [float]; a [*T] that may be [nil]
    is an [option T]; a send on [chan<- prometheus.Metric] appends to the list
    of records sent so far; a run-time panic is the [Panicked] outcome. *)

From Stdlib Require Import String Ascii List Bool Arith PeanoNat NArith Lia.
From Stdlib Require Import Floats.
From Stdlib Require Import Permutation.
Import ListNotations.

Local Open Scope string_scope.
Local Open Scope list_scope.

(** ** Go errors *)

(** The spec's taxonomy of acquisition errors (its section 7). *)
Inductive ErrorKind : Type :=
| ConfigurationError
| CounterObjectUnavailable
| TransientCollectionError
| DecodeError
| NoDataError
| TypeMismatchError.

(** An [error] value: a package-level sentinel, the result of [errors.New],
    or the result of [fmt.Errorf] with a [%w] verb, which keeps the wrapped
    error reachable through [Unwrap]. *)
Inductive error : Type :=
| sentinel (k : ErrorKind)
| errorString (msg : string)
| wrapError (prefix : string) (err : error).

Definition ErrorKind_eqb (a b : ErrorKind) : bool :=
  match a, b with
  | ConfigurationError, ConfigurationError
  | CounterObjectUnavailable, CounterObjectUnavailable
  | TransientCollectionError, TransientCollectionError
  | DecodeError, DecodeError
  | NoDataError, NoDataError
  | TypeMismatchError, TypeMismatchError => true
  | _, _ => false
  end.

Fixpoint error_eqb (a b : error) : bool :=
  match a, b with
  | sentinel k, sentinel k' => ErrorKind_eqb k k'
  | errorString m, errorString m' => String.eqb m m'
  | wrapError p e, wrapError p' e' => String.eqb p p' && error_eqb e e'
  | _, _ => false
  end.

(** [errors.Unwrap]. *)
Definition Unwrap (e : error) : option error :=
  match e with
  | wrapError _ inner => Some inner
  | _ => None
  end.

(** [errors.Is]: [target] is [err] or is found down its [Unwrap] chain. *)
Fixpoint errors_Is (err target : error) : bool :=
  error_eqb err target ||
  match err with
  | wrapError _ inner => errors_Is inner target
  | _ => false
  end.

(** [fmt.Errorf(prefix + "%w", err)]. *)
Definition fmt_Errorf_w (prefix : string) (err : error) : error :=
  wrapError prefix err.

(** ** Outcomes of code that may panic *)

Inductive outcome (A : Type) : Type :=
| Returned (a : A)
| Panicked.
Arguments Returned {A} a.
Arguments Panicked {A}.

Definition bind {A B : Type} (m : outcome A) (k : A -> outcome B) : outcome B :=
  match m with
  | Returned a => k a
  | Panicked => Panicked
  end.

Notation "x <- m ;; k" := (bind m (fun x => k))
  (at level 61, m at next level, right associativity).

(** [s[i]] on a slice: an index out of range panics. *)
Definition index {A : Type} (s : list A) (i : nat) : outcome A :=
  match nth_error s i with
  | Some a => Returned a
  | None => Panicked
  end.

(** ** internal/types *)

Module types.

(** Modelled from the spec: [types.Namespace] is declared in
    [internal/types], which is not among the sources at hand; the spec's
    scenario names the metric [windows_adfs_passive_requests_total], so
    the namespace is [windows]. *)
Definition Namespace : string := "windows".

(** Modelled from the spec: [types.ErrNoDataUnexpected] is declared in
    [internal/types], which is not among the sources at hand; it is the
    spec's [NoDataError]. *)
Definition ErrNoDataUnexpected : error := sentinel NoDataError.

End types.

(** ** The Prometheus client library *)

Module prometheus.

Inductive ValueType : Type :=
| CounterValue
| GaugeValue
| UntypedValue.

(** A descriptor; [err] is set by [NewDesc] when the descriptor is
    malformed and is what [NewConstMetric] reports later. *)
Record Desc : Type := mkDesc {
  fqName : string;
  help : string;
  variableLabels : list string;
  err : option error
}.

Record Metric : Type := mkMetric {
  desc : Desc;
  valType : ValueType;
  val : float;
  labelValues : list string
}.

(** [BuildFQName]: the non-empty parts joined by an underscore; empty when
    the name is. *)
Definition BuildFQName (namespace subsystem name : string) : string :=
  if String.eqb name "" then ""
  else if negb (String.eqb namespace "") && negb (String.eqb subsystem "")
  then namespace ++ "_" ++ subsystem ++ "_" ++ name
  else if negb (String.eqb namespace "") then namespace ++ "_" ++ name
  else if negb (String.eqb subsystem "") then subsystem ++ "_" ++ name
  else name.

Definition between (lo hi c : ascii) : bool :=
  Nat.leb (nat_of_ascii lo) (nat_of_ascii c) &&
  Nat.leb (nat_of_ascii c) (nat_of_ascii hi).

Definition isNameStart (c : ascii) : bool :=
  between "a"%char "z"%char c || between "A"%char "Z"%char c ||
  Ascii.eqb c "_"%char || Ascii.eqb c ":"%char.

Definition isNameChar (c : ascii) : bool :=
  isNameStart c || between "0"%char "9"%char c.

Fixpoint allChars (p : ascii -> bool) (s : string) : bool :=
  match s with
  | EmptyString => true
  | String c rest => p c && allChars p rest
  end.

(** The library's check of a metric name, in its strictest (legacy) form:
    non-empty, letters, digits, underscores and colons, no leading digit. *)
Definition IsValidMetricName (s : string) : bool :=
  match s with
  | EmptyString => false
  | String c rest => isNameStart c && allChars isNameChar rest
  end.

(** [NewDesc]: never fails; a malformed descriptor carries its error. *)
Definition NewDesc (fqName help : string) (variableLabels : list string)
    (constLabels : list (string * string)) : Desc :=
  if IsValidMetricName fqName
  then mkDesc fqName help variableLabels None
  else mkDesc fqName help variableLabels
         (Some (errorString ("invalid metric name: " ++ fqName))).

(** [NewConstMetric]: refuses a descriptor that carries an error and a
    number of label values other than the number of variable labels. *)
Definition NewConstMetric (d : Desc) (vt : ValueType) (value : float)
    (labelValues : list string) : Metric + error :=
  match err d with
  | Some e => inr e
  | None =>
      if Nat.eqb (length labelValues) (length (variableLabels d))
      then inl (mkMetric d vt value labelValues)
      else inr (errorString "inconsistent label cardinality")
  end.

(** [MustNewConstMetric]: panics where [NewConstMetric] returns an error;
    reading through a [nil] descriptor panics as well. *)
Definition MustNewConstMetric (d : option Desc) (vt : ValueType)
    (value : float) (labelValues : list string) : outcome Metric :=
  match d with
  | None => Panicked
  | Some d' =>
      match NewConstMetric d' vt value labelValues with
      | inl m => Returned m
      | inr _ => Panicked
      end
  end.

(** The sink [chan<- prometheus.Metric]: the records sent so far. *)
Definition Chan : Type := list Metric.

(** [ch <- m]. *)
Definition send (ch : Chan) (m : Metric) : Chan := ch ++ [m].

End prometheus.

(** ** internal/pdh: the typed performance-counter collector *)

Module pdh.

Inductive CounterType : Type :=
| CounterTypeRaw
| CounterTypeFormatted.

(** The OS query handle. *)
Definition QueryHandle : Type := nat.

Inductive ValueKind : Type :=
| Raw
| FormattedDouble
| FormattedLarge.

(** The spec's [RawSample]; [value] is the 64-bit number as the OS
    reports it. *)
Record RawSample : Type := mkRawSample {
  counterId : string;
  instanceName : option string;
  value : N;
  valueKind : ValueKind
}.

(** Modelled from the spec: [pdh.Collector] is declared in [internal/pdh],
    which is not among the sources at hand. A typed collector owns one
    query handle, open from [Build] to [Close], and the size of the last
    buffer that held a decode. *)
Record Collector : Type := mkCollector {
  counterType : CounterType;
  object : string;
  instances : list string;
  handle : QueryHandle;
  isOpen : bool;
  bufSize : N
}.

Definition set_closed (q : Collector) : Collector :=
  mkCollector (counterType q) (object q) (instances q) (handle q) false
    (bufSize q).

Definition set_bufSize (q : Collector) (n : N) : Collector :=
  mkCollector (counterType q) (object q) (instances q) (handle q)
    (isOpen q) n.

(** Modelled from the spec: [Close] of [pdh.Collector] is not among the
    sources at hand. The spec's words: closing an already-closed handle is
    a no-op, not an error; [Close] always succeeds even if called multiple
    times or before [Build]. [released] is the log of the handles given
    back to the OS, oldest first. *)
Definition Close (q : option Collector) (released : list QueryHandle)
    : option Collector * list QueryHandle :=
  match q with
  | None => (None, released)
  | Some q' =>
      if isOpen q'
      then (Some (set_closed q'), released ++ [handle q'])
      else (Some q', released)
  end.

(** What the OS answers to one decode request. *)
Inductive Response : Type :=
| TooSmall (required : N)
| Decoded (samples : list RawSample).

(** The OS layer of one collection: the answer to the [n]-th decode
    request of the call (counted from 0) made with a buffer of a given
    size. *)
Definition Decoder : Type := nat -> N -> Response.

(** The result of a negotiation: the buffer sizes of the decode requests
    issued, in order; the samples or the error; the buffer size to cache. *)
Record Negotiation : Type := mkNegotiation {
  attempts : list N;
  result : list RawSample + error;
  cache : N
}.

(** Modelled from the spec: the buffer negotiator of [internal/pdh] is not
    among the sources at hand. The spec's algorithm: request the decode
    with a buffer of the previous call's size; on "buffer too small" with
    a required size, reallocate to exactly that size and retry once; a
    second "too small" is a fatal [DecodeError]. The size of the last
    successful buffer is cached. *)
Definition negotiate (os : Decoder) (cached : N) : Negotiation :=
  match os 0 cached with
  | Decoded samples => mkNegotiation [cached] (inl samples) cached
  | TooSmall required =>
      match os 1 required with
      | Decoded samples =>
          mkNegotiation [cached; required] (inl samples) required
      | TooSmall _ =>
          mkNegotiation [cached; required] (inr (sentinel DecodeError))
            cached
      end
  end.

Section Typed.

(** The caller's typed record and its record decoder. *)
Context {T : Type}.
Variable toRecords : list RawSample -> list T.

(** Modelled from the spec: [Collect] of [pdh.Collector] is not among the
    sources at hand. The spec's words: it overwrites [out] with the
    freshly decoded records and returns [NoDataError] when zero records
    are produced; a failed negotiation surfaces as its error. The
    result is the negotiation's requests, the new contents of [out],
    the error and the collector with its cache. *)
Definition Collect (os : Decoder) (q : Collector) (out : list T)
    : list N * (list T * option error) * Collector :=
  let n := negotiate os (bufSize q) in
  match result n with
  | inl samples =>
      match toRecords samples with
      | [] => (attempts n, ([], Some (sentinel NoDataError)),
               set_bufSize q (cache n))
      | records => (attempts n, (records, None), set_bufSize q (cache n))
      end
  | inr e => (attempts n, (out, Some e), q)
  end.

End Typed.

End pdh.

(** ** internal/collector/adfs *)

Module adfs.

Import prometheus.

Definition Name : string := "adfs".

Record Config : Type := mkConfig {}.

Definition ConfigDefaults : Config := mkConfig.

(** The typed record of the counter object. Its declaration (the package's
    [types.go]) is not among the sources at hand: the fields are the ones
    [Collect] reads, in the order it reads them, each a [float64] as
    [MustNewConstMetric] takes it. *)
Record perfDataCounterValues : Type := mkValues {
  AdLoginConnectionFailures : float;
  CertificateAuthentications : float;
  DeviceAuthentications : float;
  ExtranetAccountLockouts : float;
  FederatedAuthentications : float;
  PassportAuthentications : float;
  PassiveRequests : float;
  PasswordChangeFailed : float;
  PasswordChangeSucceeded : float;
  TokenRequests : float;
  WindowsIntegratedAuthentications : float;
  OAuthAuthZRequests : float;
  OAuthClientAuthentications : float;
  OAuthClientAuthenticationFailures : float;
  OAuthClientCredentialRequestFailures : float;
  OAuthClientCredentialRequests : float;
  OAuthClientPrivateKeyJWTAuthenticationFailures : float;
  OAuthClientPrivateKeyJWTAuthentications : float;
  OAuthClientBasicAuthenticationFailures : float;
  OAuthClientBasicAuthentications : float;
  OAuthClientSecretPostAuthenticationFailures : float;
  OAuthClientSecretPostAuthentications : float;
  OAuthClientWindowsAuthenticationFailures : float;
  OAuthClientWindowsAuthentications : float;
  OAuthLogonCertRequestFailures : float;
  OAuthLogonCertTokenRequests : float;
  OAuthPasswordGrantRequestFailures : float;
  OAuthPasswordGrantRequests : float;
  OAuthTokenRequests : float;
  SamlPTokenRequests : float;
  SsoAuthenticationFailures : float;
  SsoAuthentications : float;
  WsFedTokenRequests : float;
  WsTrustTokenRequests : float;
  UsernamePasswordAuthenticationFailures : float;
  UsernamePasswordAuthentications : float;
  ExternalAuthNFailures : float;
  ExternalAuthentications : float;
  ArtifactDBFailures : float;
  AvgArtifactDBQueryTime : float;
  ConfigDBFailures : float;
  AvgConfigDBQueryTime : float;
  FederationMetadataRequests : float
}.

Record Collector : Type := mkCollector {
  config : Config;

  perfDataCollector : option pdh.Collector;
  perfDataObject : list perfDataCounterValues;

  adLoginConnectionFailures : option Desc;
  artifactDBFailures : option Desc;
  avgArtifactDBQueryTime : option Desc;
  avgConfigDBQueryTime : option Desc;
  certificateAuthentications : option Desc;
  configDBFailures : option Desc;
  deviceAuthentications : option Desc;
  externalAuthenticationFailures : option Desc;
  externalAuthentications : option Desc;
  extranetAccountLockouts : option Desc;
  federatedAuthentications : option Desc;
  federationMetadataRequests : option Desc;
  oAuthAuthZRequests : option Desc;
  oAuthClientAuthentications : option Desc;
  oAuthClientAuthenticationsFailures : option Desc;
  oAuthClientCredentialsRequestFailures : option Desc;
  oAuthClientCredentialsRequests : option Desc;
  oAuthClientPrivateKeyJwtAuthenticationFailures : option Desc;
  oAuthClientPrivateKeyJwtAuthentications : option Desc;
  oAuthClientSecretBasicAuthenticationFailures : option Desc;
  oAuthClientSecretBasicAuthentications : option Desc;
  oAuthClientSecretPostAuthenticationFailures : option Desc;
  oAuthClientSecretPostAuthentications : option Desc;
  oAuthClientWindowsIntegratedAuthenticationFailures : option Desc;
  oAuthClientWindowsIntegratedAuthentications : option Desc;
  oAuthLogonCertificateRequestFailures : option Desc;
  oAuthLogonCertificateTokenRequests : option Desc;
  oAuthPasswordGrantRequestFailures : option Desc;
  oAuthPasswordGrantRequests : option Desc;
  oAuthTokenRequests : option Desc;
  passiveRequests : option Desc;
  passportAuthentications : option Desc;
  passwordChangeFailed : option Desc;
  passwordChangeSucceeded : option Desc;
  samlPTokenRequests : option Desc;
  ssoAuthenticationFailures : option Desc;
  ssoAuthentications : option Desc;
  tokenRequests : option Desc;
  upAuthenticationFailures : option Desc;
  upAuthentications : option Desc;
  windowsIntegratedAuthentications : option Desc;
  wsFedTokenRequests : option Desc;
  wsTrustTokenRequests : option Desc
}.

Definition set_perfDataCollector (c : Collector)
    (p : option pdh.Collector) : Collector :=
  {|
     config := config c;
     perfDataCollector := p;
     perfDataObject := perfDataObject c;
     adLoginConnectionFailures := adLoginConnectionFailures c;
     artifactDBFailures := artifactDBFailures c;
     avgArtifactDBQueryTime := avgArtifactDBQueryTime c;
     avgConfigDBQueryTime := avgConfigDBQueryTime c;
     certificateAuthentications := certificateAuthentications c;
     configDBFailures := configDBFailures c;
     deviceAuthentications := deviceAuthentications c;
     externalAuthenticationFailures := externalAuthenticationFailures c;
     externalAuthentications := externalAuthentications c;
     extranetAccountLockouts := extranetAccountLockouts c;
     federatedAuthentications := federatedAuthentications c;
     federationMetadataRequests := federationMetadataRequests c;
     oAuthAuthZRequests := oAuthAuthZRequests c;
     oAuthClientAuthentications := oAuthClientAuthentications c;
     oAuthClientAuthenticationsFailures := oAuthClientAuthenticationsFailures c;
     oAuthClientCredentialsRequestFailures := oAuthClientCredentialsRequestFailures c;
     oAuthClientCredentialsRequests := oAuthClientCredentialsRequests c;
     oAuthClientPrivateKeyJwtAuthenticationFailures := oAuthClientPrivateKeyJwtAuthenticationFailures c;
     oAuthClientPrivateKeyJwtAuthentications := oAuthClientPrivateKeyJwtAuthentications c;
     oAuthClientSecretBasicAuthenticationFailures := oAuthClientSecretBasicAuthenticationFailures c;
     oAuthClientSecretBasicAuthentications := oAuthClientSecretBasicAuthentications c;
     oAuthClientSecretPostAuthenticationFailures := oAuthClientSecretPostAuthenticationFailures c;
     oAuthClientSecretPostAuthentications := oAuthClientSecretPostAuthentications c;
     oAuthClientWindowsIntegratedAuthenticationFailures := oAuthClientWindowsIntegratedAuthenticationFailures c;
     oAuthClientWindowsIntegratedAuthentications := oAuthClientWindowsIntegratedAuthentications c;
     oAuthLogonCertificateRequestFailures := oAuthLogonCertificateRequestFailures c;
     oAuthLogonCertificateTokenRequests := oAuthLogonCertificateTokenRequests c;
     oAuthPasswordGrantRequestFailures := oAuthPasswordGrantRequestFailures c;
     oAuthPasswordGrantRequests := oAuthPasswordGrantRequests c;
     oAuthTokenRequests := oAuthTokenRequests c;
     passiveRequests := passiveRequests c;
     passportAuthentications := passportAuthentications c;
     passwordChangeFailed := passwordChangeFailed c;
     passwordChangeSucceeded := passwordChangeSucceeded c;
     samlPTokenRequests := samlPTokenRequests c;
     ssoAuthenticationFailures := ssoAuthenticationFailures c;
     ssoAuthentications := ssoAuthentications c;
     tokenRequests := tokenRequests c;
     upAuthenticationFailures := upAuthenticationFailures c;
     upAuthentications := upAuthentications c;
     windowsIntegratedAuthentications := windowsIntegratedAuthentications c;
     wsFedTokenRequests := wsFedTokenRequests c;
     wsTrustTokenRequests := wsTrustTokenRequests c
  |}.

Definition set_perfDataObject (c : Collector)
    (o : list perfDataCounterValues) : Collector :=
  {|
     config := config c;
     perfDataCollector := perfDataCollector c;
     perfDataObject := o;
     adLoginConnectionFailures := adLoginConnectionFailures c;
     artifactDBFailures := artifactDBFailures c;
     avgArtifactDBQueryTime := avgArtifactDBQueryTime c;
     avgConfigDBQueryTime := avgConfigDBQueryTime c;
     certificateAuthentications := certificateAuthentications c;
     configDBFailures := configDBFailures c;
     deviceAuthentications := deviceAuthentications c;
     externalAuthenticationFailures := externalAuthenticationFailures c;
     externalAuthentications := externalAuthentications c;
     extranetAccountLockouts := extranetAccountLockouts c;
     federatedAuthentications := federatedAuthentications c;
     federationMetadataRequests := federationMetadataRequests c;
     oAuthAuthZRequests := oAuthAuthZRequests c;
     oAuthClientAuthentications := oAuthClientAuthentications c;
     oAuthClientAuthenticationsFailures := oAuthClientAuthenticationsFailures c;
     oAuthClientCredentialsRequestFailures := oAuthClientCredentialsRequestFailures c;
     oAuthClientCredentialsRequests := oAuthClientCredentialsRequests c;
     oAuthClientPrivateKeyJwtAuthenticationFailures := oAuthClientPrivateKeyJwtAuthenticationFailures c;
     oAuthClientPrivateKeyJwtAuthentications := oAuthClientPrivateKeyJwtAuthentications c;
     oAuthClientSecretBasicAuthenticationFailures := oAuthClientSecretBasicAuthenticationFailures c;
     oAuthClientSecretBasicAuthentications := oAuthClientSecretBasicAuthentications c;
     oAuthClientSecretPostAuthenticationFailures := oAuthClientSecretPostAuthenticationFailures c;
     oAuthClientSecretPostAuthentications := oAuthClientSecretPostAuthentications c;
     oAuthClientWindowsIntegratedAuthenticationFailures := oAuthClientWindowsIntegratedAuthenticationFailures c;
     oAuthClientWindowsIntegratedAuthentications := oAuthClientWindowsIntegratedAuthentications c;
     oAuthLogonCertificateRequestFailures := oAuthLogonCertificateRequestFailures c;
     oAuthLogonCertificateTokenRequests := oAuthLogonCertificateTokenRequests c;
     oAuthPasswordGrantRequestFailures := oAuthPasswordGrantRequestFailures c;
     oAuthPasswordGrantRequests := oAuthPasswordGrantRequests c;
     oAuthTokenRequests := oAuthTokenRequests c;
     passiveRequests := passiveRequests c;
     passportAuthentications := passportAuthentications c;
     passwordChangeFailed := passwordChangeFailed c;
     passwordChangeSucceeded := passwordChangeSucceeded c;
     samlPTokenRequests := samlPTokenRequests c;
     ssoAuthenticationFailures := ssoAuthenticationFailures c;
     ssoAuthentications := ssoAuthentications c;
     tokenRequests := tokenRequests c;
     upAuthenticationFailures := upAuthenticationFailures c;
     upAuthentications := upAuthentications c;
     windowsIntegratedAuthentications := windowsIntegratedAuthentications c;
     wsFedTokenRequests := wsFedTokenRequests c;
     wsTrustTokenRequests := wsTrustTokenRequests c
  |}.

(** The zero value of the struct but for its [config]. *)
Definition zero (cfg : Config) : Collector :=
  {|
     config := cfg;
     perfDataCollector := None;
     perfDataObject := [];
     adLoginConnectionFailures := None;
     artifactDBFailures := None;
     avgArtifactDBQueryTime := None;
     avgConfigDBQueryTime := None;
     certificateAuthentications := None;
     configDBFailures := None;
     deviceAuthentications := None;
     externalAuthenticationFailures := None;
     externalAuthentications := None;
     extranetAccountLockouts := None;
     federatedAuthentications := None;
     federationMetadataRequests := None;
     oAuthAuthZRequests := None;
     oAuthClientAuthentications := None;
     oAuthClientAuthenticationsFailures := None;
     oAuthClientCredentialsRequestFailures := None;
     oAuthClientCredentialsRequests := None;
     oAuthClientPrivateKeyJwtAuthenticationFailures := None;
     oAuthClientPrivateKeyJwtAuthentications := None;
     oAuthClientSecretBasicAuthenticationFailures := None;
     oAuthClientSecretBasicAuthentications := None;
     oAuthClientSecretPostAuthenticationFailures := None;
     oAuthClientSecretPostAuthentications := None;
     oAuthClientWindowsIntegratedAuthenticationFailures := None;
     oAuthClientWindowsIntegratedAuthentications := None;
     oAuthLogonCertificateRequestFailures := None;
     oAuthLogonCertificateTokenRequests := None;
     oAuthPasswordGrantRequestFailures := None;
     oAuthPasswordGrantRequests := None;
     oAuthTokenRequests := None;
     passiveRequests := None;
     passportAuthentications := None;
     passwordChangeFailed := None;
     passwordChangeSucceeded := None;
     samlPTokenRequests := None;
     ssoAuthenticationFailures := None;
     ssoAuthentications := None;
     tokenRequests := None;
     upAuthenticationFailures := None;
     upAuthentications := None;
     windowsIntegratedAuthentications := None;
     wsFedTokenRequests := None;
     wsTrustTokenRequests := None
  |}.

Definition New (config : option Config) : Collector :=
  let config :=
    match config with
    | None => ConfigDefaults
    | Some cfg => cfg
    end in
  zero config.

Definition NewWithFlags : Collector := zero mkConfig.

Definition GetName (c : Collector) : string := Name.

(** [Close]. The call on [c.perfDataCollector] is [pdh.Close]; [released]
    is the OS's log of released handles, threaded through. *)
Definition Close (c : Collector) (released : list pdh.QueryHandle)
    : Collector * option error * list pdh.QueryHandle :=
  let '(q, released) := pdh.Close (perfDataCollector c) released in
  (set_perfDataCollector c q, None, released).

(** [Build]. [newCollector] is what [pdh.NewCollector] answers on this
    host: the collector it created, if any, and its error. *)
Definition Build (c : Collector)
    (newCollector : pdh.CounterType -> string -> list string ->
                    option pdh.Collector * option error)
    : Collector * option error :=
  let c :=
    {|
       config := config c;
       perfDataCollector := perfDataCollector c;
       perfDataObject := perfDataObject c;
       adLoginConnectionFailures :=
         Some (NewDesc (BuildFQName types.Namespace Name "ad_login_connection_failures_total")
                 "Total number of connection failures to an Active Directory domain controller"
                 [] []);
       certificateAuthentications :=
         Some (NewDesc (BuildFQName types.Namespace Name "certificate_authentications_total")
                 "Total number of User Certificate authentications"
                 [] []);
       deviceAuthentications :=
         Some (NewDesc (BuildFQName types.Namespace Name "device_authentications_total")
                 "Total number of Device authentications"
                 [] []);
       extranetAccountLockouts :=
         Some (NewDesc (BuildFQName types.Namespace Name "extranet_account_lockouts_total")
                 "Total number of Extranet Account Lockouts"
                 [] []);
       federatedAuthentications :=
         Some (NewDesc (BuildFQName types.Namespace Name "federated_authentications_total")
                 "Total number of authentications from a federated source"
                 [] []);
       passportAuthentications :=
         Some (NewDesc (BuildFQName types.Namespace Name "passport_authentications_total")
                 "Total number of Microsoft Passport SSO authentications"
                 [] []);
       passiveRequests :=
         Some (NewDesc (BuildFQName types.Namespace Name "passive_requests_total")
                 "Total number of passive (browser-based) requests"
                 [] []);
       passwordChangeFailed :=
         Some (NewDesc (BuildFQName types.Namespace Name "password_change_failed_total")
                 "Total number of failed password changes"
                 [] []);
       passwordChangeSucceeded :=
         Some (NewDesc (BuildFQName types.Namespace Name "password_change_succeeded_total")
                 "Total number of successful password changes"
                 [] []);
       tokenRequests :=
         Some (NewDesc (BuildFQName types.Namespace Name "token_requests_total")
                 "Total number of token requests"
                 [] []);
       windowsIntegratedAuthentications :=
         Some (NewDesc (BuildFQName types.Namespace Name "windows_integrated_authentications_total")
                 "Total number of Windows integrated authentications (Kerberos/NTLM)"
                 [] []);
       oAuthAuthZRequests :=
         Some (NewDesc (BuildFQName types.Namespace Name "oauth_authorization_requests_total")
                 "Total number of incoming requests to the OAuth Authorization endpoint"
                 [] []);
       oAuthClientAuthentications :=
         Some (NewDesc (BuildFQName types.Namespace Name "oauth_client_authentication_success_total")
                 "Total number of successful OAuth client Authentications"
                 [] []);
       oAuthClientAuthenticationsFailures :=
         Some (NewDesc (BuildFQName types.Namespace Name "oauth_client_authentication_failure_total")
                 "Total number of failed OAuth client Authentications"
                 [] []);
       oAuthClientCredentialsRequestFailures :=
         Some (NewDesc (BuildFQName types.Namespace Name "oauth_client_credentials_failure_total")
                 "Total number of failed OAuth Client Credentials Requests"
                 [] []);
       oAuthClientCredentialsRequests :=
         Some (NewDesc (BuildFQName types.Namespace Name "oauth_client_credentials_success_total")
                 "Total number of successful RP tokens issued for OAuth Client Credentials Requests"
                 [] []);
       oAuthClientPrivateKeyJwtAuthenticationFailures :=
         Some (NewDesc (BuildFQName types.Namespace Name "oauth_client_privkey_jwt_authentication_failure_total")
                 "Total number of failed OAuth Client Private Key Jwt Authentications"
                 [] []);
       oAuthClientPrivateKeyJwtAuthentications :=
         Some (NewDesc (BuildFQName types.Namespace Name "oauth_client_privkey_jwt_authentications_success_total")
                 "Total number of successful OAuth Client Private Key Jwt Authentications"
                 [] []);
       oAuthClientSecretBasicAuthenticationFailures :=
         Some (NewDesc (BuildFQName types.Namespace Name "oauth_client_secret_basic_authentications_failure_total")
                 "Total number of failed OAuth Client Secret Basic Authentications"
                 [] []);
       oAuthClientSecretBasicAuthentications :=
         Some (NewDesc (BuildFQName types.Namespace Name "oauth_client_secret_basic_authentications_success_total")
                 "Total number of successful OAuth Client Secret Basic Authentications"
                 [] []);
       oAuthClientSecretPostAuthenticationFailures :=
         Some (NewDesc (BuildFQName types.Namespace Name "oauth_client_secret_post_authentications_failure_total")
                 "Total number of failed OAuth Client Secret Post Authentications"
                 [] []);
       oAuthClientSecretPostAuthentications :=
         Some (NewDesc (BuildFQName types.Namespace Name "oauth_client_secret_post_authentications_success_total")
                 "Total number of successful OAuth Client Secret Post Authentications"
                 [] []);
       oAuthClientWindowsIntegratedAuthenticationFailures :=
         Some (NewDesc (BuildFQName types.Namespace Name "oauth_client_windows_authentications_failure_total")
                 "Total number of failed OAuth Client Windows Integrated Authentications"
                 [] []);
       oAuthClientWindowsIntegratedAuthentications :=
         Some (NewDesc (BuildFQName types.Namespace Name "oauth_client_windows_authentications_success_total")
                 "Total number of successful OAuth Client Windows Integrated Authentications"
                 [] []);
       oAuthLogonCertificateRequestFailures :=
         Some (NewDesc (BuildFQName types.Namespace Name "oauth_logon_certificate_requests_failure_total")
                 "Total number of failed OAuth Logon Certificate Requests"
                 [] []);
       oAuthLogonCertificateTokenRequests :=
         Some (NewDesc (BuildFQName types.Namespace Name "oauth_logon_certificate_token_requests_success_total")
                 "Total number of successful RP tokens issued for OAuth Logon Certificate Requests"
                 [] []);
       oAuthPasswordGrantRequestFailures :=
         Some (NewDesc (BuildFQName types.Namespace Name "oauth_password_grant_requests_failure_total")
                 "Total number of failed OAuth Password Grant Requests"
                 [] []);
       oAuthPasswordGrantRequests :=
         Some (NewDesc (BuildFQName types.Namespace Name "oauth_password_grant_requests_success_total")
                 "Total number of successful OAuth Password Grant Requests"
                 [] []);
       oAuthTokenRequests :=
         Some (NewDesc (BuildFQName types.Namespace Name "oauth_token_requests_success_total")
                 "Total number of successful RP tokens issued over OAuth protocol"
                 [] []);
       samlPTokenRequests :=
         Some (NewDesc (BuildFQName types.Namespace Name "samlp_token_requests_success_total")
                 "Total number of successful RP tokens issued over SAML-P protocol"
                 [] []);
       ssoAuthenticationFailures :=
         Some (NewDesc (BuildFQName types.Namespace Name "sso_authentications_failure_total")
                 "Total number of failed SSO authentications"
                 [] []);
       ssoAuthentications :=
         Some (NewDesc (BuildFQName types.Namespace Name "sso_authentications_success_total")
                 "Total number of successful SSO authentications"
                 [] []);
       wsFedTokenRequests :=
         Some (NewDesc (BuildFQName types.Namespace Name "wsfed_token_requests_success_total")
                 "Total number of successful RP tokens issued over WS-Fed protocol"
                 [] []);
       wsTrustTokenRequests :=
         Some (NewDesc (BuildFQName types.Namespace Name "wstrust_token_requests_success_total")
                 "Total number of successful RP tokens issued over WS-Trust protocol"
                 [] []);
       upAuthenticationFailures :=
         Some (NewDesc (BuildFQName types.Namespace Name "userpassword_authentications_failure_total")
                 "Total number of failed AD U/P authentications"
                 [] []);
       upAuthentications :=
         Some (NewDesc (BuildFQName types.Namespace Name "userpassword_authentications_success_total")
                 "Total number of successful AD U/P authentications"
                 [] []);
       externalAuthenticationFailures :=
         Some (NewDesc (BuildFQName types.Namespace Name "external_authentications_failure_total")
                 "Total number of failed authentications from external MFA providers"
                 [] []);
       externalAuthentications :=
         Some (NewDesc (BuildFQName types.Namespace Name "external_authentications_success_total")
                 "Total number of successful authentications from external MFA providers"
                 [] []);
       artifactDBFailures :=
         Some (NewDesc (BuildFQName types.Namespace Name "db_artifact_failure_total")
                 "Total number of failures connecting to the artifact database"
                 [] []);
       avgArtifactDBQueryTime :=
         Some (NewDesc (BuildFQName types.Namespace Name "db_artifact_query_time_seconds_total")
                 "Accumulator of time taken for an artifact database query"
                 [] []);
       configDBFailures :=
         Some (NewDesc (BuildFQName types.Namespace Name "db_config_failure_total")
                 "Total number of failures connecting to the configuration database"
                 [] []);
       avgConfigDBQueryTime :=
         Some (NewDesc (BuildFQName types.Namespace Name "db_config_query_time_seconds_total")
                 "Accumulator of time taken for a configuration database query"
                 [] []);
       federationMetadataRequests :=
         Some (NewDesc (BuildFQName types.Namespace Name "federation_metadata_requests_total")
                 "Total number of Federation Metadata requests"
                 [] [])
    |} in
  let '(q, err) := newCollector pdh.CounterTypeRaw "AD FS" [] in
  let c := set_perfDataCollector c q in
  match err with
  | Some e => (c, Some (fmt_Errorf_w "failed to create AD FS collector: " e))
  | None => (c, None)
  end.

Section Collect.

(** Go's [math.Pow]. *)
Variable math_Pow : float -> float -> float.

(** [Collect]. [collected] is what the call
    [c.perfDataCollector.Collect(&c.perfDataObject)] does this cycle:
    the contents it leaves in [c.perfDataObject] and the error it
    returns. The result is the collector, the error returned and the
    sink. *)
Definition Collect (c : Collector)
    (collected : list perfDataCounterValues * option error) (ch : Chan)
    : outcome (Collector * option error * Chan) :=
  let c := set_perfDataObject c (fst collected) in
  match snd collected with
  | Some err =>
      Returned
        (c, Some (fmt_Errorf_w "failed to collect ADFS metrics: " err), ch)
  | None =>
    if Nat.eqb (length (perfDataObject c)) 0
    then
      Returned
        (c, Some (fmt_Errorf_w "failed to collect ADFS metrics: "
                    types.ErrNoDataUnexpected), ch)
    else
    x <- index (perfDataObject c) 0 ;;
    m <- MustNewConstMetric (adLoginConnectionFailures c) CounterValue
           (AdLoginConnectionFailures x) [] ;;
    let ch := send ch m in

    x <- index (perfDataObject c) 0 ;;
    m <- MustNewConstMetric (certificateAuthentications c) CounterValue
           (CertificateAuthentications x) [] ;;
    let ch := send ch m in

    x <- index (perfDataObject c) 0 ;;
    m <- MustNewConstMetric (deviceAuthentications c) CounterValue
           (DeviceAuthentications x) [] ;;
    let ch := send ch m in

    x <- index (perfDataObject c) 0 ;;
    m <- MustNewConstMetric (extranetAccountLockouts c) CounterValue
           (ExtranetAccountLockouts x) [] ;;
    let ch := send ch m in

    x <- index (perfDataObject c) 0 ;;
    m <- MustNewConstMetric (federatedAuthentications c) CounterValue
           (FederatedAuthentications x) [] ;;
    let ch := send ch m in

    x <- index (perfDataObject c) 0 ;;
    m <- MustNewConstMetric (passportAuthentications c) CounterValue
           (PassportAuthentications x) [] ;;
    let ch := send ch m in

    x <- index (perfDataObject c) 0 ;;
    m <- MustNewConstMetric (passiveRequests c) CounterValue
           (PassiveRequests x) [] ;;
    let ch := send ch m in

    x <- index (perfDataObject c) 0 ;;
    m <- MustNewConstMetric (passwordChangeFailed c) CounterValue
           (PasswordChangeFailed x) [] ;;
    let ch := send ch m in

    x <- index (perfDataObject c) 0 ;;
    m <- MustNewConstMetric (passwordChangeSucceeded c) CounterValue
           (PasswordChangeSucceeded x) [] ;;
    let ch := send ch m in

    x <- index (perfDataObject c) 0 ;;
    m <- MustNewConstMetric (tokenRequests c) CounterValue
           (TokenRequests x) [] ;;
    let ch := send ch m in

    x <- index (perfDataObject c) 0 ;;
    m <- MustNewConstMetric (windowsIntegratedAuthentications c) CounterValue
           (WindowsIntegratedAuthentications x) [] ;;
    let ch := send ch m in

    x <- index (perfDataObject c) 0 ;;
    m <- MustNewConstMetric (oAuthAuthZRequests c) CounterValue
           (OAuthAuthZRequests x) [] ;;
    let ch := send ch m in

    x <- index (perfDataObject c) 0 ;;
    m <- MustNewConstMetric (oAuthClientAuthentications c) CounterValue
           (OAuthClientAuthentications x) [] ;;
    let ch := send ch m in

    x <- index (perfDataObject c) 0 ;;
    m <- MustNewConstMetric (oAuthClientAuthenticationsFailures c) CounterValue
           (OAuthClientAuthenticationFailures x) [] ;;
    let ch := send ch m in

    x <- index (perfDataObject c) 0 ;;
    m <- MustNewConstMetric (oAuthClientCredentialsRequestFailures c) CounterValue
           (OAuthClientCredentialRequestFailures x) [] ;;
    let ch := send ch m in

    x <- index (perfDataObject c) 0 ;;
    m <- MustNewConstMetric (oAuthClientCredentialsRequests c) CounterValue
           (OAuthClientCredentialRequests x) [] ;;
    let ch := send ch m in

    x <- index (perfDataObject c) 0 ;;
    m <- MustNewConstMetric (oAuthClientPrivateKeyJwtAuthenticationFailures c) CounterValue
           (OAuthClientPrivateKeyJWTAuthenticationFailures x) [] ;;
    let ch := send ch m in

    x <- index (perfDataObject c) 0 ;;
    m <- MustNewConstMetric (oAuthClientPrivateKeyJwtAuthentications c) CounterValue
           (OAuthClientPrivateKeyJWTAuthentications x) [] ;;
    let ch := send ch m in

    x <- index (perfDataObject c) 0 ;;
    m <- MustNewConstMetric (oAuthClientSecretBasicAuthenticationFailures c) CounterValue
           (OAuthClientBasicAuthenticationFailures x) [] ;;
    let ch := send ch m in

    x <- index (perfDataObject c) 0 ;;
    m <- MustNewConstMetric (oAuthClientSecretBasicAuthentications c) CounterValue
           (OAuthClientBasicAuthentications x) [] ;;
    let ch := send ch m in

    x <- index (perfDataObject c) 0 ;;
    m <- MustNewConstMetric (oAuthClientSecretPostAuthenticationFailures c) CounterValue
           (OAuthClientSecretPostAuthenticationFailures x) [] ;;
    let ch := send ch m in

    x <- index (perfDataObject c) 0 ;;
    m <- MustNewConstMetric (oAuthClientSecretPostAuthentications c) CounterValue
           (OAuthClientSecretPostAuthentications x) [] ;;
    let ch := send ch m in

    x <- index (perfDataObject c) 0 ;;
    m <- MustNewConstMetric (oAuthClientWindowsIntegratedAuthenticationFailures c) CounterValue
           (OAuthClientWindowsAuthenticationFailures x) [] ;;
    let ch := send ch m in

    x <- index (perfDataObject c) 0 ;;
    m <- MustNewConstMetric (oAuthClientWindowsIntegratedAuthentications c) CounterValue
           (OAuthClientWindowsAuthentications x) [] ;;
    let ch := send ch m in

    x <- index (perfDataObject c) 0 ;;
    m <- MustNewConstMetric (oAuthLogonCertificateRequestFailures c) CounterValue
           (OAuthLogonCertRequestFailures x) [] ;;
    let ch := send ch m in

    x <- index (perfDataObject c) 0 ;;
    m <- MustNewConstMetric (oAuthLogonCertificateTokenRequests c) CounterValue
           (OAuthLogonCertTokenRequests x) [] ;;
    let ch := send ch m in

    x <- index (perfDataObject c) 0 ;;
    m <- MustNewConstMetric (oAuthPasswordGrantRequestFailures c) CounterValue
           (OAuthPasswordGrantRequestFailures x) [] ;;
    let ch := send ch m in

    x <- index (perfDataObject c) 0 ;;
    m <- MustNewConstMetric (oAuthPasswordGrantRequests c) CounterValue
           (OAuthPasswordGrantRequests x) [] ;;
    let ch := send ch m in

    x <- index (perfDataObject c) 0 ;;
    m <- MustNewConstMetric (oAuthTokenRequests c) CounterValue
           (OAuthTokenRequests x) [] ;;
    let ch := send ch m in

    x <- index (perfDataObject c) 0 ;;
    m <- MustNewConstMetric (samlPTokenRequests c) CounterValue
           (SamlPTokenRequests x) [] ;;
    let ch := send ch m in

    x <- index (perfDataObject c) 0 ;;
    m <- MustNewConstMetric (ssoAuthenticationFailures c) CounterValue
           (SsoAuthenticationFailures x) [] ;;
    let ch := send ch m in

    x <- index (perfDataObject c) 0 ;;
    m <- MustNewConstMetric (ssoAuthentications c) CounterValue
           (SsoAuthentications x) [] ;;
    let ch := send ch m in

    x <- index (perfDataObject c) 0 ;;
    m <- MustNewConstMetric (wsFedTokenRequests c) CounterValue
           (WsFedTokenRequests x) [] ;;
    let ch := send ch m in

    x <- index (perfDataObject c) 0 ;;
    m <- MustNewConstMetric (wsTrustTokenRequests c) CounterValue
           (WsTrustTokenRequests x) [] ;;
    let ch := send ch m in

    x <- index (perfDataObject c) 0 ;;
    m <- MustNewConstMetric (upAuthenticationFailures c) CounterValue
           (UsernamePasswordAuthenticationFailures x) [] ;;
    let ch := send ch m in

    x <- index (perfDataObject c) 0 ;;
    m <- MustNewConstMetric (upAuthentications c) CounterValue
           (UsernamePasswordAuthentications x) [] ;;
    let ch := send ch m in

    x <- index (perfDataObject c) 0 ;;
    m <- MustNewConstMetric (externalAuthenticationFailures c) CounterValue
           (ExternalAuthNFailures x) [] ;;
    let ch := send ch m in

    x <- index (perfDataObject c) 0 ;;
    m <- MustNewConstMetric (externalAuthentications c) CounterValue
           (ExternalAuthentications x) [] ;;
    let ch := send ch m in

    x <- index (perfDataObject c) 0 ;;
    m <- MustNewConstMetric (artifactDBFailures c) CounterValue
           (ArtifactDBFailures x) [] ;;
    let ch := send ch m in

    x <- index (perfDataObject c) 0 ;;
    m <- MustNewConstMetric (avgArtifactDBQueryTime c) CounterValue
           (PrimFloat.mul (AvgArtifactDBQueryTime x) (math_Pow 10%float (-8)%float)) [] ;;
    let ch := send ch m in

    x <- index (perfDataObject c) 0 ;;
    m <- MustNewConstMetric (configDBFailures c) CounterValue
           (ConfigDBFailures x) [] ;;
    let ch := send ch m in

    x <- index (perfDataObject c) 0 ;;
    m <- MustNewConstMetric (avgConfigDBQueryTime c) CounterValue
           (PrimFloat.mul (AvgConfigDBQueryTime x) (math_Pow 10%float (-8)%float)) [] ;;
    let ch := send ch m in

    x <- index (perfDataObject c) 0 ;;
    m <- MustNewConstMetric (federationMetadataRequests c) CounterValue
           (FederationMetadataRequests x) [] ;;
    let ch := send ch m in

    Returned (c, None, ch)
  end.

End Collect.

End adfs.

(** ** The collector registry and one scrape round *)

Module scheduler.

Import prometheus.

Inductive State : Type :=
| Unbuilt
| Built
| Closed.

(** What a collector's [Collect] does in one round: it returns after
    [elapsed] ticks with its error and the records it sent, or it never
    returns. *)
Inductive Run : Type :=
| Finished (elapsed : nat) (err : option error) (emitted : list Metric)
| Hung.

(** The spec's [CollectorDescriptor], with the collector's [Collect] of
    this round. *)
Record Registered : Type := mkRegistered {
  name : string;
  enabled : bool;
  state : State;
  collect : Run
}.

Inductive Outcome : Type :=
| success
| failure_timeout
| failure (reason : error).

Record Report : Type := mkReport {
  collector : string;
  duration : nat;
  outcome : Outcome
}.

(** The spec's [ScrapeOutcome], with the aggregator's count of failed
    collectors and the success of the scrape as a whole. *)
Record ScrapeOutcome : Type := mkScrapeOutcome {
  perCollector : list Report;
  metrics : list Metric;
  failed : nat;
  succeeded : bool
}.

Definition eligible (r : Registered) : bool :=
  enabled r &&
  match state r with
  | Built => true
  | _ => false
  end.

(** Modelled from the spec: the scheduler is not among the sources at
    hand. Steps 2 to 4 of the spec's scrape algorithm for one collector:
    still running at the deadline is [failure: timeout] with the output
    discarded; an error is [failure: <reason>]; otherwise the records
    are kept. *)
Definition round (deadline : nat) (r : Registered) : Report * list Metric :=
  match collect r with
  | Hung => (mkReport (name r) deadline failure_timeout, [])
  | Finished elapsed err emitted =>
      if Nat.ltb deadline elapsed
      then (mkReport (name r) deadline failure_timeout, [])
      else
        match err with
        | Some e => (mkReport (name r) elapsed (failure e), [])
        | None => (mkReport (name r) elapsed success, emitted)
        end
  end.

Definition isFailure (r : Report) : bool :=
  match outcome r with
  | success => false
  | _ => true
  end.

(** Modelled from the spec: the scheduler and the aggregator are not among
    the sources at hand. Every enabled collector in state [Built] runs;
    the records of the successful ones are merged in registration order;
    failures of collectors are counted and never fail the scrape. *)
Definition scrape (deadline : nat) (registry : list Registered)
    : ScrapeOutcome :=
  let rounds := map (round deadline) (filter eligible registry) in
  mkScrapeOutcome
    (map fst rounds)
    (concat (map snd rounds))
    (length (filter isFailure (map fst rounds)))
    true.

End scheduler.

(** * Properties *)

Import prometheus adfs.

(** ** The emission sequence of [Collect] as a table *)

Section Emission.

Variable math_Pow : float -> float -> float.

(** The descriptor and the value of each send of [adfs.Collect], in the
    order of the source. *)
Definition emission (c : adfs.Collector)
    : list (option Desc * (adfs.perfDataCounterValues -> float)) :=
  [
     (adLoginConnectionFailures c, AdLoginConnectionFailures);
     (certificateAuthentications c, CertificateAuthentications);
     (deviceAuthentications c, DeviceAuthentications);
     (extranetAccountLockouts c, ExtranetAccountLockouts);
     (federatedAuthentications c, FederatedAuthentications);
     (passportAuthentications c, PassportAuthentications);
     (passiveRequests c, PassiveRequests);
     (passwordChangeFailed c, PasswordChangeFailed);
     (passwordChangeSucceeded c, PasswordChangeSucceeded);
     (tokenRequests c, TokenRequests);
     (windowsIntegratedAuthentications c, WindowsIntegratedAuthentications);
     (oAuthAuthZRequests c, OAuthAuthZRequests);
     (oAuthClientAuthentications c, OAuthClientAuthentications);
     (oAuthClientAuthenticationsFailures c, OAuthClientAuthenticationFailures);
     (oAuthClientCredentialsRequestFailures c, OAuthClientCredentialRequestFailures);
     (oAuthClientCredentialsRequests c, OAuthClientCredentialRequests);
     (oAuthClientPrivateKeyJwtAuthenticationFailures c, OAuthClientPrivateKeyJWTAuthenticationFailures);
     (oAuthClientPrivateKeyJwtAuthentications c, OAuthClientPrivateKeyJWTAuthentications);
     (oAuthClientSecretBasicAuthenticationFailures c, OAuthClientBasicAuthenticationFailures);
     (oAuthClientSecretBasicAuthentications c, OAuthClientBasicAuthentications);
     (oAuthClientSecretPostAuthenticationFailures c, OAuthClientSecretPostAuthenticationFailures);
     (oAuthClientSecretPostAuthentications c, OAuthClientSecretPostAuthentications);
     (oAuthClientWindowsIntegratedAuthenticationFailures c, OAuthClientWindowsAuthenticationFailures);
     (oAuthClientWindowsIntegratedAuthentications c, OAuthClientWindowsAuthentications);
     (oAuthLogonCertificateRequestFailures c, OAuthLogonCertRequestFailures);
     (oAuthLogonCertificateTokenRequests c, OAuthLogonCertTokenRequests);
     (oAuthPasswordGrantRequestFailures c, OAuthPasswordGrantRequestFailures);
     (oAuthPasswordGrantRequests c, OAuthPasswordGrantRequests);
     (oAuthTokenRequests c, OAuthTokenRequests);
     (samlPTokenRequests c, SamlPTokenRequests);
     (ssoAuthenticationFailures c, SsoAuthenticationFailures);
     (ssoAuthentications c, SsoAuthentications);
     (wsFedTokenRequests c, WsFedTokenRequests);
     (wsTrustTokenRequests c, WsTrustTokenRequests);
     (upAuthenticationFailures c, UsernamePasswordAuthenticationFailures);
     (upAuthentications c, UsernamePasswordAuthentications);
     (externalAuthenticationFailures c, ExternalAuthNFailures);
     (externalAuthentications c, ExternalAuthentications);
     (artifactDBFailures c, ArtifactDBFailures);
     (avgArtifactDBQueryTime c, (fun x => PrimFloat.mul (AvgArtifactDBQueryTime x) (math_Pow 10%float (-8)%float)));
     (configDBFailures c, ConfigDBFailures);
     (avgConfigDBQueryTime c, (fun x => PrimFloat.mul (AvgConfigDBQueryTime x) (math_Pow 10%float (-8)%float)));
     (federationMetadataRequests c, FederationMetadataRequests)
  ].

End Emission.


(** The sends of [Collect] run off a table: each entry reads
    [c.perfDataObject[0]], builds the metric and sends it. *)
Fixpoint sendAll
    (table : list (option Desc * (perfDataCounterValues -> float)))
    (object : list perfDataCounterValues) (ch : Chan) : outcome Chan :=
  match table with
  | [] => Returned ch
  | (d, value) :: rest =>
      x <- index object 0 ;;
      m <- MustNewConstMetric d CounterValue (value x) [] ;;
      sendAll rest object (send ch m)
  end.

(** [sendAll] followed by the rest of the function, [k]. *)
Fixpoint sendAllThen {A : Type}
    (table : list (option Desc * (perfDataCounterValues -> float)))
    (object : list perfDataCounterValues) (ch : Chan)
    (k : Chan -> outcome A) : outcome A :=
  match table with
  | [] => k ch
  | (d, value) :: rest =>
      x <- index object 0 ;;
      m <- MustNewConstMetric d CounterValue (value x) [] ;;
      sendAllThen rest object (send ch m) k
  end.

(** The descriptor fields of the struct, in the order of their declaration. *)
Definition descriptors (c : Collector) : list (option Desc) :=
  [
     adLoginConnectionFailures c;
     artifactDBFailures c;
     avgArtifactDBQueryTime c;
     avgConfigDBQueryTime c;
     certificateAuthentications c;
     configDBFailures c;
     deviceAuthentications c;
     externalAuthenticationFailures c;
     externalAuthentications c;
     extranetAccountLockouts c;
     federatedAuthentications c;
     federationMetadataRequests c;
     oAuthAuthZRequests c;
     oAuthClientAuthentications c;
     oAuthClientAuthenticationsFailures c;
     oAuthClientCredentialsRequestFailures c;
     oAuthClientCredentialsRequests c;
     oAuthClientPrivateKeyJwtAuthenticationFailures c;
     oAuthClientPrivateKeyJwtAuthentications c;
     oAuthClientSecretBasicAuthenticationFailures c;
     oAuthClientSecretBasicAuthentications c;
     oAuthClientSecretPostAuthenticationFailures c;
     oAuthClientSecretPostAuthentications c;
     oAuthClientWindowsIntegratedAuthenticationFailures c;
     oAuthClientWindowsIntegratedAuthentications c;
     oAuthLogonCertificateRequestFailures c;
     oAuthLogonCertificateTokenRequests c;
     oAuthPasswordGrantRequestFailures c;
     oAuthPasswordGrantRequests c;
     oAuthTokenRequests c;
     passiveRequests c;
     passportAuthentications c;
     passwordChangeFailed c;
     passwordChangeSucceeded c;
     samlPTokenRequests c;
     ssoAuthenticationFailures c;
     ssoAuthentications c;
     tokenRequests c;
     upAuthenticationFailures c;
     upAuthentications c;
     windowsIntegratedAuthentications c;
     wsFedTokenRequests c;
     wsTrustTokenRequests c
  ].

(** A descriptor [MustNewConstMetric] accepts without label values. *)
Definition usable (d : option Desc) : bool :=
  match d with
  | Some d' =>
      match err d', variableLabels d' with
      | None, [] => true
      | _, _ => false
      end
  | None => false
  end.

(** ** The static declaration of the fields *)

(** How a field's counter value becomes the metric's value: as it is, or
    from 100-nanosecond ticks. *)
Inductive Scale : Type :=
| Unscaled
| Ticks.

(** The metric, the field of the typed record it is read from and the
    field's scale, for each metric of the collector. *)
Definition declared : list (string * (perfDataCounterValues -> float) * Scale) :=
  [
       ("windows_adfs_ad_login_connection_failures_total",
        AdLoginConnectionFailures, Unscaled);
       ("windows_adfs_certificate_authentications_total",
        CertificateAuthentications, Unscaled);
       ("windows_adfs_device_authentications_total",
        DeviceAuthentications, Unscaled);
       ("windows_adfs_extranet_account_lockouts_total",
        ExtranetAccountLockouts, Unscaled);
       ("windows_adfs_federated_authentications_total",
        FederatedAuthentications, Unscaled);
       ("windows_adfs_passport_authentications_total",
        PassportAuthentications, Unscaled);
       ("windows_adfs_passive_requests_total",
        PassiveRequests, Unscaled);
       ("windows_adfs_password_change_failed_total",
        PasswordChangeFailed, Unscaled);
       ("windows_adfs_password_change_succeeded_total",
        PasswordChangeSucceeded, Unscaled);
       ("windows_adfs_token_requests_total",
        TokenRequests, Unscaled);
       ("windows_adfs_windows_integrated_authentications_total",
        WindowsIntegratedAuthentications, Unscaled);
       ("windows_adfs_oauth_authorization_requests_total",
        OAuthAuthZRequests, Unscaled);
       ("windows_adfs_oauth_client_authentication_success_total",
        OAuthClientAuthentications, Unscaled);
       ("windows_adfs_oauth_client_authentication_failure_total",
        OAuthClientAuthenticationFailures, Unscaled);
       ("windows_adfs_oauth_client_credentials_failure_total",
        OAuthClientCredentialRequestFailures, Unscaled);
       ("windows_adfs_oauth_client_credentials_success_total",
        OAuthClientCredentialRequests, Unscaled);
       ("windows_adfs_oauth_client_privkey_jwt_authentication_failure_total",
        OAuthClientPrivateKeyJWTAuthenticationFailures, Unscaled);
       ("windows_adfs_oauth_client_privkey_jwt_authentications_success_total",
        OAuthClientPrivateKeyJWTAuthentications, Unscaled);
       ("windows_adfs_oauth_client_secret_basic_authentications_failure_total",
        OAuthClientBasicAuthenticationFailures, Unscaled);
       ("windows_adfs_oauth_client_secret_basic_authentications_success_total",
        OAuthClientBasicAuthentications, Unscaled);
       ("windows_adfs_oauth_client_secret_post_authentications_failure_total",
        OAuthClientSecretPostAuthenticationFailures, Unscaled);
       ("windows_adfs_oauth_client_secret_post_authentications_success_total",
        OAuthClientSecretPostAuthentications, Unscaled);
       ("windows_adfs_oauth_client_windows_authentications_failure_total",
        OAuthClientWindowsAuthenticationFailures, Unscaled);
       ("windows_adfs_oauth_client_windows_authentications_success_total",
        OAuthClientWindowsAuthentications, Unscaled);
       ("windows_adfs_oauth_logon_certificate_requests_failure_total",
        OAuthLogonCertRequestFailures, Unscaled);
       ("windows_adfs_oauth_logon_certificate_token_requests_success_total",
        OAuthLogonCertTokenRequests, Unscaled);
       ("windows_adfs_oauth_password_grant_requests_failure_total",
        OAuthPasswordGrantRequestFailures, Unscaled);
       ("windows_adfs_oauth_password_grant_requests_success_total",
        OAuthPasswordGrantRequests, Unscaled);
       ("windows_adfs_oauth_token_requests_success_total",
        OAuthTokenRequests, Unscaled);
       ("windows_adfs_samlp_token_requests_success_total",
        SamlPTokenRequests, Unscaled);
       ("windows_adfs_sso_authentications_failure_total",
        SsoAuthenticationFailures, Unscaled);
       ("windows_adfs_sso_authentications_success_total",
        SsoAuthentications, Unscaled);
       ("windows_adfs_wsfed_token_requests_success_total",
        WsFedTokenRequests, Unscaled);
       ("windows_adfs_wstrust_token_requests_success_total",
        WsTrustTokenRequests, Unscaled);
       ("windows_adfs_userpassword_authentications_failure_total",
        UsernamePasswordAuthenticationFailures, Unscaled);
       ("windows_adfs_userpassword_authentications_success_total",
        UsernamePasswordAuthentications, Unscaled);
       ("windows_adfs_external_authentications_failure_total",
        ExternalAuthNFailures, Unscaled);
       ("windows_adfs_external_authentications_success_total",
        ExternalAuthentications, Unscaled);
       ("windows_adfs_db_artifact_failure_total",
        ArtifactDBFailures, Unscaled);
       ("windows_adfs_db_artifact_query_time_seconds_total",
        AvgArtifactDBQueryTime, Ticks);
       ("windows_adfs_db_config_failure_total",
        ConfigDBFailures, Unscaled);
       ("windows_adfs_db_config_query_time_seconds_total",
        AvgConfigDBQueryTime, Ticks);
       ("windows_adfs_federation_metadata_requests_total",
        FederationMetadataRequests, Unscaled)
  ].

Definition scaled (math_Pow : float -> float -> float) (s : Scale) (x : float)
    : float :=
  match s with
  | Unscaled => x
  | Ticks => PrimFloat.mul x (math_Pow 10%float (-8)%float)
  end.

(** ** Concrete inputs *)

(** A [math.Pow] that answers [1e-8]. *)
Definition pow_1e_8 (x y : float) : float := 0x1.5798ee2308c3ap-27%float.

(** A host on which the counter object exists: [pdh.NewCollector] succeeds
    with query handle 7. *)
Definition host_ok (t : pdh.CounterType) (object : string)
    (instances : list string) : option pdh.Collector * option error :=
  (Some (pdh.mkCollector t object instances 7 true 0), None).

(** A host without the counter object. *)
Definition host_missing (t : pdh.CounterType) (object : string)
    (instances : list string) : option pdh.Collector * option error :=
  (None, Some (sentinel CounterObjectUnavailable)).

(** The record of the spec's scenario: [PassiveRequests = 42], 3 * 10^8
    ticks of artifact database query time, zero elsewhere. *)
Definition record_42 : perfDataCounterValues :=
  {|
    AdLoginConnectionFailures := 0%float;
    CertificateAuthentications := 0%float;
    DeviceAuthentications := 0%float;
    ExtranetAccountLockouts := 0%float;
    FederatedAuthentications := 0%float;
    PassportAuthentications := 0%float;
    PassiveRequests := 42%float;
    PasswordChangeFailed := 0%float;
    PasswordChangeSucceeded := 0%float;
    TokenRequests := 0%float;
    WindowsIntegratedAuthentications := 0%float;
    OAuthAuthZRequests := 0%float;
    OAuthClientAuthentications := 0%float;
    OAuthClientAuthenticationFailures := 0%float;
    OAuthClientCredentialRequestFailures := 0%float;
    OAuthClientCredentialRequests := 0%float;
    OAuthClientPrivateKeyJWTAuthenticationFailures := 0%float;
    OAuthClientPrivateKeyJWTAuthentications := 0%float;
    OAuthClientBasicAuthenticationFailures := 0%float;
    OAuthClientBasicAuthentications := 0%float;
    OAuthClientSecretPostAuthenticationFailures := 0%float;
    OAuthClientSecretPostAuthentications := 0%float;
    OAuthClientWindowsAuthenticationFailures := 0%float;
    OAuthClientWindowsAuthentications := 0%float;
    OAuthLogonCertRequestFailures := 0%float;
    OAuthLogonCertTokenRequests := 0%float;
    OAuthPasswordGrantRequestFailures := 0%float;
    OAuthPasswordGrantRequests := 0%float;
    OAuthTokenRequests := 0%float;
    SamlPTokenRequests := 0%float;
    SsoAuthenticationFailures := 0%float;
    SsoAuthentications := 0%float;
    WsFedTokenRequests := 0%float;
    WsTrustTokenRequests := 0%float;
    UsernamePasswordAuthenticationFailures := 0%float;
    UsernamePasswordAuthentications := 0%float;
    ExternalAuthNFailures := 0%float;
    ExternalAuthentications := 0%float;
    ArtifactDBFailures := 0%float;
    AvgArtifactDBQueryTime := 300000000%float;
    ConfigDBFailures := 0%float;
    AvgConfigDBQueryTime := 0%float;
    FederationMetadataRequests := 0%float
  |}.

(** The collector after [New] and a successful [Build]. *)
Definition built_collector : Collector := fst (Build (New None) host_ok).

(** An OS layer that answers "buffer too small" to every decode request,
    asking for one byte more each time. *)
Definition always_too_small : pdh.Decoder :=
  fun _ size => pdh.TooSmall (size + 1)%N.

(** A record decoder for the typed record: one record per sample. *)
Definition one_per_sample (samples : list pdh.RawSample)
    : list perfDataCounterValues :=
  map (fun _ => record_42) samples.

(** Three registered collectors; the second one's [Collect] fails with no
    data. *)
Definition three_collectors : list scheduler.Registered :=
  [ scheduler.mkRegistered "cpu" true scheduler.Built
      (scheduler.Finished 2 None
         [mkMetric (NewDesc "windows_cpu_time_total" "cpu" [] [])
            CounterValue 1%float []]);
    scheduler.mkRegistered "adfs" true scheduler.Built
      (scheduler.Finished 1
         (Some (fmt_Errorf_w "failed to collect ADFS metrics: "
                  types.ErrNoDataUnexpected)) []);
    scheduler.mkRegistered "os" true scheduler.Built
      (scheduler.Finished 3 None
         [mkMetric (NewDesc "windows_os_info" "os" [] [])
            GaugeValue 1%float []]) ].

(** * Verification *)

(** ** The panic monad and the client library *)

Lemma bind_Returned {A B : Type} (m : outcome A) (k : A -> outcome B) (b : B) :
  bind m k = Returned b -> exists a, m = Returned a /\ k a = Returned b.
Proof.
  destruct m as [a|]; simpl; intros H; [exists a; auto | discriminate].
Qed.

Lemma sendAllThen_bind {A : Type} table object (k : Chan -> outcome A) :
  forall ch, sendAllThen table object ch k = bind (sendAll table object ch) k.
Proof.
  induction table as [|[d value] rest IH]; intros ch; simpl; [reflexivity|].
  destruct (index object 0) as [x|]; simpl; [|reflexivity].
  destruct (MustNewConstMetric d CounterValue (value x) []) as [m|]; simpl;
    [apply IH | reflexivity].
Qed.

Lemma Collect_emission pow c collected ch :
  Collect pow c collected ch =
  let c' := set_perfDataObject c (fst collected) in
  match snd collected with
  | Some e =>
      Returned (c', Some (fmt_Errorf_w "failed to collect ADFS metrics: " e), ch)
  | None =>
      match fst collected with
      | [] =>
          Returned (c', Some (fmt_Errorf_w "failed to collect ADFS metrics: "
                                types.ErrNoDataUnexpected), ch)
      | _ :: _ =>
          ch' <- sendAll (emission pow c) (fst collected) ch ;;
          Returned (c', None, ch')
      end
  end.
Proof.
  destruct collected as [[|r rest] [e|]]; try reflexivity.
  cbv zeta. cbn [fst snd].
  rewrite <- sendAllThen_bind.
  reflexivity.
Qed.

Lemma Must_Returned d vt v l m :
  MustNewConstMetric d vt v l = Returned m ->
  d = Some (desc m) /\ valType m = vt /\ val m = v /\ labelValues m = l.
Proof.
  unfold MustNewConstMetric, NewConstMetric.
  destruct d as [d|]; [|discriminate].
  destruct (err d); [discriminate|].
  destruct (Nat.eqb _ _); [|discriminate].
  intros H; injection H as <-; simpl; auto.
Qed.

Lemma Must_usable d vt v :
  usable d = true -> exists m, MustNewConstMetric d vt v [] = Returned m.
Proof.
  unfold usable, MustNewConstMetric, NewConstMetric.
  destruct d as [d|]; [|discriminate].
  destruct (err d); [discriminate|].
  destruct (variableLabels d); [|discriminate].
  intros _; eexists; reflexivity.
Qed.

Lemma sendAll_Returned table r rest :
  forall ch ch',
    sendAll table (r :: rest) ch = Returned ch' ->
    exists ms,
      ch' = ch ++ ms /\
      map (fun m => Some (desc m)) ms = map fst table /\
      map val ms = map (fun p => snd p r) table /\
      Forall (fun m => valType m = CounterValue /\ labelValues m = []) ms.
Proof.
  induction table as [|[d value] tl IH]; intros ch ch' H; simpl in H.
  - injection H as <-. exists []. rewrite app_nil_r. repeat split; constructor.
  - apply bind_Returned in H as (m & Hm & H).
    apply Must_Returned in Hm as (Hd & Ht & Hv & Hl).
    apply IH in H as (ms & -> & Hds & Hvs & Hts).
    exists (m :: ms). unfold send. rewrite <- app_assoc. simpl.
    split; [reflexivity|]. split; [|split].
    + rewrite Hds, Hd. reflexivity.
    + rewrite Hvs, Hv. reflexivity.
    + constructor; auto.
Qed.

Lemma sendAll_first_only table r rest rest' :
  forall ch, sendAll table (r :: rest) ch = sendAll table (r :: rest') ch.
Proof.
  induction table as [|[d value] tl IH]; intros ch; simpl; [reflexivity|].
  destruct (MustNewConstMetric d CounterValue (value r) []); simpl; auto.
Qed.

Lemma sendAll_usable table r rest :
  forallb usable (map fst table) = true ->
  forall ch, exists ch', sendAll table (r :: rest) ch = Returned ch'.
Proof.
  induction table as [|[d value] tl IH]; intros Hu ch; simpl.
  - eexists; reflexivity.
  - simpl in Hu. apply andb_true_iff in Hu as [Hd Hu].
    destruct (Must_usable d CounterValue (value r) Hd) as [m ->]. simpl.
    apply IH, Hu.
Qed.

Lemma Build_usable pow c nc :
  forallb usable (map fst (emission pow (fst (Build c nc)))) = true.
Proof.
  unfold Build. destruct (nc _ _ _) as [q [e|]]; vm_compute; reflexivity.
Qed.

Lemma Build_names pow c nc :
  map (option_map fqName) (map fst (emission pow (fst (Build c nc)))) =
  map Some (map (fun d => fst (fst d)) declared).
Proof.
  unfold Build. destruct (nc _ _ _) as [q [e|]]; vm_compute; reflexivity.
Qed.

Lemma map_Some_inj {A : Type} (l : list A) :
  forall l', map Some l = map Some l' -> l = l'.
Proof.
  induction l as [|a l IH]; intros [|b l'] H; simpl in H; try discriminate;
    [reflexivity|].
  injection H as -> H. f_equal. apply IH, H.
Qed.

Lemma map_pair_eq {A B C D : Type} (f : A -> C) (g : A -> D)
    (f' : B -> C) (g' : B -> D) (l : list A) :
  forall l' : list B,
    map f l = map f' l' -> map g l = map g' l' ->
    map (fun a => (f a, g a)) l = map (fun b => (f' b, g' b)) l'.
Proof.
  induction l as [|a l IH]; intros [|b l'] Hf Hg; simpl in *;
    try discriminate; [reflexivity|].
  injection Hf as Hf1 Hf2. injection Hg as Hg1 Hg2.
  rewrite Hf1, Hg1. f_equal. apply IH; assumption.
Qed.

Lemma map_split_at {A B : Type} (g : A -> B) (n : nat) :
  forall (l : list A) (L : list B) (b : B),
    map g l = L -> nth_error L n = Some b ->
    exists before a after,
      l = before ++ a :: after /\ g a = b /\
      map g before = firstn n L /\ map g after = skipn (S n) L.
Proof.
  induction n as [|n IH]; intros [|a l] L b HL Hn; subst L; simpl in *;
    try discriminate.
  - injection Hn as <-. exists [], a, l. auto.
  - destruct (IH l _ b eq_refl Hn) as (before & x & after & -> & Hx & Hb & Ha).
    exists (a :: before), x, after. simpl. rewrite Hb. auto.
Qed.

Lemma errors_Is_wrap prefix cause target :
  errors_Is cause target = true ->
  errors_Is (fmt_Errorf_w prefix cause) target = true.
Proof.
  intros H. simpl. rewrite H. apply orb_true_r.
Qed.

(** ** [Collect] on a collector that [Build] has set up *)

(** After [Build], whatever [pdh.NewCollector] answered, a cycle that
    delivers records without an error returns [nil], having sent one metric
    per entry of the declaration table, with the declared name and the
    scaled value of the first record's field. *)
Lemma Collect_built pow c nc r rest ch :
  exists ms,
    Collect pow (fst (Build c nc)) (r :: rest, None) ch =
      Returned (set_perfDataObject (fst (Build c nc)) (r :: rest), None,
                ch ++ ms) /\
    map (fun m => Some (desc m)) ms = map fst (emission pow (fst (Build c nc))) /\
    map (fun m => (fqName (desc m), val m)) ms =
      map (fun d => (fst (fst d), scaled pow (snd d) (snd (fst d) r))) declared /\
    Forall (fun m => valType m = CounterValue /\ labelValues m = []) ms.
Proof.
  rewrite Collect_emission. cbn [fst snd].
  destruct (sendAll_usable _ r rest (Build_usable pow c nc) ch) as [ch' Hch].
  rewrite Hch. cbn [bind].
  destruct (sendAll_Returned _ _ _ _ _ Hch) as (ms & -> & Hd & Hv & Ht).
  exists ms. repeat split; try assumption.
  apply map_pair_eq.
  - apply map_Some_inj. rewrite <- (Build_names pow c nc), <- Hd.
    rewrite !map_map. reflexivity.
  - rewrite Hv. reflexivity.
Qed.

(** ** The claims about [New], [Build] and [Collect] *)

(** C10. [New] is a total function of its argument alone (no host, no OS
    state enters it): for a [nil] config the collector's config is
    [ConfigDefaults], for a given config it is that config; the perf-data
    collector is [nil], no record is held and every one of the 43
    descriptor fields is [nil] until [Build]. *)
Theorem New_is_pure_construction (cfg : option Config) :
  config (New cfg) =
    match cfg with
    | None => ConfigDefaults
    | Some given => given
    end /\
  perfDataCollector (New cfg) = None /\
  perfDataObject (New cfg) = [] /\
  length (descriptors (New cfg)) = 43 /\
  Forall (fun d => d = None) (descriptors (New cfg)).
Proof.
  destruct cfg as [given|]; repeat split; repeat constructor.
Qed.

(** C1. The scenario of the counter object "AD FS" with one instance whose
    [PassiveRequests] is 42: [Build] asks [pdh.NewCollector] for the object
    "AD FS"; a cycle that delivers that one record returns [nil], holds
    exactly that one record, and sends, among its metrics, exactly one named
    [windows_adfs_passive_requests_total], of type counter and value 42. *)
Theorem passive_requests_scenario pow c nc r ch :
  PassiveRequests r = 42%float ->
  perfDataCollector (fst (Build c nc)) =
    fst (nc pdh.CounterTypeRaw "AD FS" []) /\
  exists before m after,
    Collect pow (fst (Build c nc)) ([r], None) ch =
      Returned (set_perfDataObject (fst (Build c nc)) [r], None,
                ch ++ before ++ m :: after) /\
    perfDataObject (set_perfDataObject (fst (Build c nc)) [r]) = [r] /\
    fqName (desc m) = "windows_adfs_passive_requests_total" /\
    valType m = CounterValue /\
    val m = 42%float /\
    Forall (fun m' => fqName (desc m') <> "windows_adfs_passive_requests_total")
      (before ++ after).
Proof.
  intros H42. split.
  - unfold Build. destruct (nc _ _ _) as [q [e|]]; reflexivity.
  - destruct (Collect_built pow c nc r [] ch) as (ms & HC & _ & Hnv & Ht).
    destruct (map_split_at _ 6 ms _
                ("windows_adfs_passive_requests_total", PassiveRequests r)
                Hnv eq_refl)
      as (before & m & after & -> & Hm & Hb & Ha).
    exists before, m, after. injection Hm as Hname Hval.
    repeat split; try assumption.
    + apply Forall_app in Ht as [_ Ht]. inversion Ht as [|? ? [Hc _] _].
      exact Hc.
    + congruence.
    + assert (Hnames : forallb
                (fun n => negb (String.eqb n "windows_adfs_passive_requests_total"))
                (map (fun m' => fqName (desc m')) (before ++ after)) = true).
      { rewrite map_app.
        replace (map (fun m' => fqName (desc m')) before)
          with (map fst (map (fun m' => (fqName (desc m'), val m')) before))
          by (rewrite map_map; reflexivity).
        replace (map (fun m' => fqName (desc m')) after)
          with (map fst (map (fun m' => (fqName (desc m'), val m')) after))
          by (rewrite map_map; reflexivity).
        rewrite Hb, Ha. vm_compute. reflexivity. }
      rewrite forallb_forall in Hnames. apply Forall_forall. intros m' Hin.
      specialize (Hnames _ (in_map _ _ _ Hin)).
      apply negb_true_iff, String.eqb_neq in Hnames. exact Hnames.
Qed.

Lemma passive_requests_scenario_witness :
  PassiveRequests record_42 = 42%float /\
  exists before m after,
    Collect pow_1e_8 built_collector ([record_42], None) [] =
      Returned (set_perfDataObject built_collector [record_42], None,
                [] ++ before ++ m :: after) /\
    val m = 42%float.
Proof.
  split; [reflexivity|].
  destruct (passive_requests_scenario pow_1e_8 (New None) host_ok record_42 []
              eq_refl) as (_ & before & m & after & H & _ & _ & _ & Hv & _).
  exists before, m, after. split; [exact H | exact Hv].
Defined.

(** C2. A cycle in which the acquisition layer delivers zero records and no
    error returns an error that [errors.Is] classifies as
    [ErrNoDataUnexpected]; an error of the acquisition layer itself (its own
    no-data error included) is returned wrapped, so that [errors.Is] still
    finds it; both leave the sink untouched. A cycle that delivers [N > 0]
    records without error to a built collector returns [nil] and the
    collector then holds exactly those [N] records. *)
Theorem Collect_no_data_is_an_error pow c0 nc c collected ch :
  (collected = ([], None) ->
   exists e,
     Collect pow c collected ch = Returned (set_perfDataObject c [], Some e, ch) /\
     errors_Is e types.ErrNoDataUnexpected = true) /\
  (forall cause, snd collected = Some cause ->
   exists e,
     Collect pow c collected ch =
       Returned (set_perfDataObject c (fst collected), Some e, ch) /\
     forall target, errors_Is cause target = true -> errors_Is e target = true) /\
  (forall N, snd collected = None -> length (fst collected) = N -> 0 < N ->
   exists c' ch',
     Collect pow (fst (Build c0 nc)) collected ch = Returned (c', None, ch') /\
     perfDataObject c' = fst collected /\
     length (perfDataObject c') = N).
Proof.
  split; [|split].
  - intros ->. eexists. split; reflexivity.
  - intros cause Hc. destruct collected as [objs err]. simpl in Hc. subst err.
    eexists. split; [reflexivity|]. intros target. apply errors_Is_wrap.
  - intros N He Hlen HN. destruct collected as [[|r rest] err]; simpl in *.
    + subst N. inversion HN.
    + subst err. destruct (Collect_built pow c0 nc r rest ch) as (ms & HC & _).
      eexists. eexists. split; [exact HC|]. split; [reflexivity | exact Hlen].
Qed.

Lemma Collect_no_data_is_an_error_witness :
  (exists e,
     Collect pow_1e_8 built_collector ([], None) [] =
       Returned (set_perfDataObject built_collector [], Some e, []) /\
     errors_Is e types.ErrNoDataUnexpected = true) /\
  (exists c' ch',
     Collect pow_1e_8 built_collector ([record_42; record_42], None) [] =
       Returned (c', None, ch') /\
     perfDataObject c' = [record_42; record_42] /\
     length (perfDataObject c') = 2).
Proof.
  split.
  - exact (proj1 (Collect_no_data_is_an_error pow_1e_8 (New None) host_ok
                    built_collector ([], None) []) eq_refl).
  - exact (proj2 (proj2 (Collect_no_data_is_an_error pow_1e_8 (New None) host_ok
                           built_collector ([record_42; record_42], None) []))
             2 eq_refl eq_refl (Nat.lt_0_succ 1)).
Defined.

(** C3. On a built collector every metric of a successful cycle carries the
    value the field's static declaration prescribes: the two tick counters
    (the query-time accumulators) the first record's field multiplied by
    [math.Pow(10, -8)], a factor that depends on nothing read at run time;
    every field declared unscaled the 64-bit float of the record itself. *)
Theorem values_follow_the_declaration pow c nc r rest ch :
  exists ms,
    Collect pow (fst (Build c nc)) (r :: rest, None) ch =
      Returned (set_perfDataObject (fst (Build c nc)) (r :: rest), None,
                ch ++ ms) /\
    map (fun m => (fqName (desc m), val m)) ms =
      map (fun d => (fst (fst d), scaled pow (snd d) (snd (fst d) r))) declared /\
    (forall x, scaled pow Ticks x = PrimFloat.mul x (pow 10%float (-8)%float)) /\
    (forall x, scaled pow Unscaled x = x) /\
    map (fun d => fst (fst d))
        (filter (fun d => match snd d with Ticks => true | Unscaled => false end)
           declared) =
      ["windows_adfs_db_artifact_query_time_seconds_total";
       "windows_adfs_db_config_query_time_seconds_total"].
Proof.
  destruct (Collect_built pow c nc r rest ch) as (ms & HC & _ & Hnv & _).
  exists ms. repeat split; assumption.
Qed.

Ltac split_list_at a r k :=
  lazymatch r with
  | a :: ?t => k (@nil (option Desc)) t
  | ?h :: ?t => split_list_at a t ltac:(fun l1 l2 => k (h :: l1) l2)
  end.

Ltac permutation_by_position :=
  repeat lazymatch goal with
    | |- Permutation [] [] => apply perm_nil
    | |- Permutation (?a :: ?l) ?r =>
        split_list_at a r
          ltac:(fun l1 l2 =>
                  change r with (l1 ++ a :: l2);
                  apply Permutation_cons_app; cbn [app])
    end.

(** Every descriptor field of the struct is sent exactly once per cycle. *)
Lemma emission_covers_descriptors pow c :
  Permutation (map fst (emission pow c)) (descriptors c).
Proof.
  cbv [emission descriptors map fst]. permutation_by_position.
Qed.

(** C7. No acquisition-layer failure panics: whatever the state of the
    collector, a cycle in which the acquisition layer returns an error or
    delivers no record returns an error value, and after [Build] every
    cycle returns, whatever the acquisition layer delivered. *)
Theorem Collect_returns_errors_as_values pow c0 nc c collected ch :
  ((snd collected <> None \/ fst collected = []) ->
   exists e,
     Collect pow c collected ch =
       Returned (set_perfDataObject c (fst collected), Some e, ch)) /\
  (exists c' oe ch',
     Collect pow (fst (Build c0 nc)) collected ch = Returned (c', oe, ch')).
Proof.
  split.
  - intros H. destruct collected as [[|r rest] [cause|]]; simpl in H;
      try (eexists; reflexivity).
    destruct H as [H|H]; [contradiction | discriminate].
  - destruct collected as [[|r rest] [cause|]];
      try (do 3 eexists; reflexivity).
    destruct (Collect_built pow c0 nc r rest ch) as (ms & HC & _).
    do 3 eexists. exact HC.
Qed.

Lemma Collect_returns_errors_as_values_witness :
  exists e,
    Collect pow_1e_8 (New None)
      ([record_42], Some (sentinel TransientCollectionError)) [] =
      Returned (set_perfDataObject (New None) [record_42], Some e, []).
Proof.
  refine (proj1 (Collect_returns_errors_as_values pow_1e_8 (New None) host_ok
                   (New None)
                   ([record_42], Some (sentinel TransientCollectionError)) [])
            _).
  left. discriminate.
Defined.

(** C8. A cycle that returns an error has written nothing to the sink: the
    sink it hands back is the one it was given, and the error is returned
    before the first send (the acquisition layer failed or delivered no
    record). The sink of the result is all the function ever writes: it
    starts no goroutine that could write later. *)
Theorem error_leaves_sink_untouched pow c collected ch c' e ch' :
  Collect pow c collected ch = Returned (c', Some e, ch') ->
  ch' = ch /\ (snd collected <> None \/ fst collected = []).
Proof.
  rewrite Collect_emission.
  destruct collected as [[|r rest] [cause|]]; cbn [fst snd]; intros H.
  - injection H as _ _ <-. split; [reflexivity | left; discriminate].
  - injection H as _ _ <-. split; [reflexivity | right; reflexivity].
  - injection H as _ _ <-. split; [reflexivity | left; discriminate].
  - apply bind_Returned in H as (ch1 & _ & H). discriminate.
Qed.

Lemma error_leaves_sink_untouched_witness :
  exists c' e ch',
    Collect pow_1e_8 built_collector ([], None)
      [mkMetric (NewDesc "windows_os_info" "os" [] []) GaugeValue 1%float []] =
      Returned (c', Some e, ch') /\
    ch' =
      [mkMetric (NewDesc "windows_os_info" "os" [] []) GaugeValue 1%float []].
Proof.
  do 3 eexists. split; [reflexivity|].
  exact (proj1 (error_leaves_sink_untouched pow_1e_8 built_collector ([], None)
                  _ _ _ _ eq_refl)).
Defined.

(** C9. A cycle that returns [nil] has appended exactly 43 metrics to the
    sink: one for each descriptor field of the struct, in the order of the
    sends in the source, every one of type counter, every value read from
    the first record delivered; the records after the first change
    nothing. *)
Theorem success_sends_43_counters pow c collected ch c' ch' :
  Collect pow c collected ch = Returned (c', None, ch') ->
  exists r rest ms,
    fst collected = r :: rest /\
    ch' = ch ++ ms /\
    length ms = 43 /\
    Forall (fun m => valType m = CounterValue) ms /\
    map (fun m => Some (desc m)) ms = map fst (emission pow c) /\
    Permutation (map fst (emission pow c)) (descriptors c) /\
    map val ms = map (fun p => snd p r) (emission pow c) /\
    forall rest',
      Collect pow c (r :: rest', None) ch =
        Returned (set_perfDataObject c (r :: rest'), None, ch').
Proof.
  rewrite Collect_emission.
  destruct collected as [[|r rest] [cause|]]; cbn [fst snd]; intros H;
    try discriminate.
  apply bind_Returned in H as (ch1 & Hs & H). injection H as _ <-.
  destruct (sendAll_Returned _ _ _ _ _ Hs) as (ms & -> & Hd & Hv & Ht).
  exists r, rest, ms. repeat split.
  - apply (f_equal (@length _)) in Hd. rewrite !length_map in Hd.
    exact Hd.
  - eapply Forall_impl; [|exact Ht]. intros m [Hm _]. exact Hm.
  - exact Hd.
  - apply emission_covers_descriptors.
  - exact Hv.
  - intros rest'. rewrite Collect_emission. cbn [fst snd].
    rewrite (sendAll_first_only _ r rest' rest), Hs. reflexivity.
Qed.

Lemma success_sends_43_counters_witness :
  exists c' ch',
    Collect pow_1e_8 built_collector ([record_42; record_42], None) [] =
      Returned (c', None, ch') /\
    exists ms, ch' = [] ++ ms /\ length ms = 43.
Proof.
  destruct (Collect_built pow_1e_8 (New None) host_ok record_42 [record_42] [])
    as (ms0 & HC & _).
  do 2 eexists. split; [exact HC|].
  destruct (success_sends_43_counters pow_1e_8 built_collector
              ([record_42; record_42], None) [] _ _ HC)
    as (r & rest & ms & _ & Hch & Hlen & _).
  exists ms. split; [exact Hch | exact Hlen].
Defined.

(** ** The claims about the acquisition layer and the scheduler *)

(** C4. [Close] returns no error, on any collector; a second [Close] right
    after the first returns no error either, changes nothing and releases
    nothing: over the two calls no query handle is released more than once.
    On a collector on which [Build] never ran (the perf-data collector is
    [nil]) [Close] releases nothing and leaves the collector as it was. *)
Theorem Close_is_idempotent (c : Collector) (released : list pdh.QueryHandle) :
  let first := Close c released in
  let second := Close (fst (fst first)) (snd first) in
  snd (fst first) = None /\
  snd (fst second) = None /\
  second = first /\
  (forall h,
     count_occ Nat.eq_dec (snd second) h <=
     S (count_occ Nat.eq_dec released h)) /\
  (forall cfg, Close (New cfg) released = (New cfg, None, released)) /\
  (forall cfg,
     Close (fst (fst (Close (New cfg) released))) (snd (Close (New cfg) released))
     = (New cfg, None, released)).
Proof.
  assert (Hnew : forall cfg, Close (New cfg) released = (New cfg, None, released))
    by (intros [[]|]; reflexivity).
  cbv zeta. split; [|split; [|split; [|split; [|split]]]].
  - unfold Close. destruct (pdh.Close _ _). reflexivity.
  - destruct c as [cfg q objs]. unfold Close. cbn [perfDataCollector].
    destruct q as [[t o i h [|] b]|]; reflexivity.
  - destruct c as [cfg q objs]. unfold Close. cbn [perfDataCollector].
    destruct q as [[t o i h [|] b]|]; reflexivity.
  - intros h'. destruct c as [cfg q objs]. unfold Close.
    cbn [perfDataCollector].
    destruct q as [[t o i h [|] b]|]; cbn; rewrite ?count_occ_app; cbn;
      try destruct (Nat.eq_dec h h'); unfold pdh.QueryHandle in *; lia.
  - exact Hnew.
  - intros cfg. rewrite (Hnew cfg). cbn [fst snd]. apply Hnew.
Qed.

(** C5. One collection issues at most two decode requests, whatever the OS
    layer answers; when the OS layer answers "buffer too small" to every
    request there are exactly two, the second with the size the OS asked
    for, and the collector's [Collect] returns an error that [errors.Is]
    classifies as a decode error, with nothing sent. *)
Theorem negotiation_is_bounded pow
    (toRecords : list pdh.RawSample -> list perfDataCounterValues)
    (os : pdh.Decoder) (q : pdh.Collector) c ch :
  let run := pdh.Collect toRecords os q (perfDataObject c) in
  length (fst (fst run)) <= 2 /\
  ((forall n size, exists required, os n size = pdh.TooSmall required) ->
   (exists required,
      os 0 (pdh.bufSize q) = pdh.TooSmall required /\
      fst (fst run) = [pdh.bufSize q; required]) /\
   exists e,
     Collect pow c (snd (fst run)) ch =
       Returned (set_perfDataObject c (perfDataObject c), Some e, ch) /\
     errors_Is e (sentinel DecodeError) = true).
Proof.
  cbv zeta. unfold pdh.Collect, pdh.negotiate. split.
  - destruct (os 0 (pdh.bufSize q)) as [required|samples].
    + destruct (os 1 required) as [required'|samples]; cbn.
      * lia.
      * destruct (toRecords samples); cbn; lia.
    + cbn. destruct (toRecords samples); cbn; lia.
  - intros Hsmall.
    destruct (Hsmall 0 (pdh.bufSize q)) as [required ->].
    destruct (Hsmall 1 required) as [required' ->]. cbn. split.
    + exists required. split; reflexivity.
    + eexists. split; reflexivity.
Qed.

Lemma negotiation_is_bounded_witness :
  exists e,
    Collect pow_1e_8 built_collector
      (snd (fst (pdh.Collect one_per_sample always_too_small
                   (pdh.mkCollector pdh.CounterTypeRaw "AD FS" [] 7 true 0)
                   (perfDataObject built_collector)))) [] =
      Returned (set_perfDataObject built_collector
                  (perfDataObject built_collector), Some e, []) /\
    errors_Is e (sentinel DecodeError) = true.
Proof.
  refine (proj2 (proj2 (negotiation_is_bounded pow_1e_8 one_per_sample
                          always_too_small
                          (pdh.mkCollector pdh.CounterTypeRaw "AD FS" [] 7 true 0)
                          built_collector []) _)).
  intros n size. exists (size + 1)%N. reflexivity.
Defined.

Lemma round_in_scrape deadline registry r :
  In r registry -> scheduler.eligible r = true ->
  In (fst (scheduler.round deadline r))
     (scheduler.perCollector (scheduler.scrape deadline registry)) /\
  forall m, In m (snd (scheduler.round deadline r)) ->
            In m (scheduler.metrics (scheduler.scrape deadline registry)).
Proof.
  intros Hin Hel.
  assert (Hf : In r (filter scheduler.eligible registry))
    by (apply filter_In; auto).
  unfold scheduler.scrape. cbn [scheduler.perCollector scheduler.metrics].
  split.
  - rewrite map_map. apply (in_map (fun x => fst (scheduler.round deadline x))).
    exact Hf.
  - intros m Hm. apply in_concat. exists (snd (scheduler.round deadline r)).
    split; [|exact Hm]. rewrite map_map.
    apply (in_map (fun x => snd (scheduler.round deadline x))). exact Hf.
Qed.

(** C6. In a scrape round in which the [Collect] of a registered, enabled,
    built collector returns an error within the deadline, that collector is
    reported as failed with that very error, every metric of every
    collector that returned no error within the deadline is in the merged
    output, and the scrape as a whole succeeds. *)
Theorem scrape_isolates_failures deadline registry r elapsed e emitted :
  In r registry ->
  scheduler.eligible r = true ->
  scheduler.collect r = scheduler.Finished elapsed (Some e) emitted ->
  elapsed <= deadline ->
  let round := scheduler.scrape deadline registry in
  In (scheduler.mkReport (scheduler.name r) elapsed (scheduler.failure e))
     (scheduler.perCollector round) /\
  (forall r' elapsed' emitted' m,
     In r' registry ->
     scheduler.eligible r' = true ->
     scheduler.collect r' = scheduler.Finished elapsed' None emitted' ->
     elapsed' <= deadline ->
     In m emitted' ->
     In m (scheduler.metrics round)) /\
  scheduler.succeeded round = true.
Proof.
  intros Hin Hel Hc Hd. cbv zeta. split; [|split].
  - destruct (round_in_scrape deadline registry r Hin Hel) as [H _].
    unfold scheduler.round in H. rewrite Hc in H.
    apply Nat.ltb_ge in Hd. rewrite Hd in H. exact H.
  - intros r' elapsed' emitted' m Hin' Hel' Hc' Hd' Hm.
    destruct (round_in_scrape deadline registry r' Hin' Hel') as [_ H].
    apply H. unfold scheduler.round. rewrite Hc'.
    apply Nat.ltb_ge in Hd'. rewrite Hd'. exact Hm.
  - reflexivity.
Qed.

Lemma scrape_isolates_failures_witness :
  In (scheduler.mkReport "adfs" 1
        (scheduler.failure
           (fmt_Errorf_w "failed to collect ADFS metrics: "
              types.ErrNoDataUnexpected)))
     (scheduler.perCollector (scheduler.scrape 5 three_collectors)) /\
  scheduler.succeeded (scheduler.scrape 5 three_collectors) = true.
Proof.
  destruct (scrape_isolates_failures 5 three_collectors
              (nth 1 three_collectors (scheduler.mkRegistered "" false scheduler.Unbuilt scheduler.Hung))
              1 _ [] (or_intror (or_introl eq_refl)) eq_refl eq_refl
              (le_S _ _ (le_S _ _ (le_S _ _ (le_S _ _ (le_n 1))))))
    as (H & _ & Hs).
  split; [exact H | exact Hs].
Defined.

(** ** Further properties of [Build] *)

Lemma option_string_dec (x y : option string) : {x = y} + {x <> y}.
Proof.
  decide equality. apply string_dec.
Defined.

Lemma NoDup_by_nodup {A : Type} (dec : forall x y : A, {x = y} + {x <> y})
    (l : list A) :
  nodup dec l = l -> NoDup l.
Proof.
  intros H. rewrite <- H. apply NoDup_nodup.
Qed.

(** X1. Whatever the collector held before and whatever [pdh.NewCollector]
    answers, after [Build] each of the 43 descriptor fields holds a
    descriptor that [MustNewConstMetric] accepts without label values; the
    43 fully-qualified names are pairwise distinct, each starts with
    [windows_adfs_] (namespace, then [GetName]) and has a non-empty help
    text. *)
Theorem Build_sets_every_descriptor c nc :
  let c' := fst (Build c nc) in
  length (descriptors c') = 43 /\
  forallb usable (descriptors c') = true /\
  NoDup (map (option_map fqName) (descriptors c')) /\
  forallb
    (fun d =>
       match d with
       | Some d' =>
           String.prefix (types.Namespace ++ "_" ++ GetName c' ++ "_") (fqName d')
           && negb (String.eqb (help d') "")
       | None => false
       end) (descriptors c') = true.
Proof.
  cbv zeta. unfold Build.
  destruct (nc _ _ _) as [q [e|]]; cbn [fst];
    (split; [reflexivity|]; split; [vm_compute; reflexivity|];
     split; [|vm_compute; reflexivity]);
    apply (NoDup_by_nodup option_string_dec); vm_compute; reflexivity.
Qed.

(** X2. [Build] fails exactly when [pdh.NewCollector] does, asked for raw
    counters of the object "AD FS" with no instance filter and for nothing
    else: the error returned is the cause wrapped under "failed to create
    AD FS collector: ", so [errors.Is] still finds the cause, and the
    perf-data collector held afterwards is the one [pdh.NewCollector]
    returned, also on failure. *)
Theorem Build_fails_as_NewCollector_does c nc :
  perfDataCollector (fst (Build c nc)) = fst (nc pdh.CounterTypeRaw "AD FS" []) /\
  snd (Build c nc) =
    option_map (fmt_Errorf_w "failed to create AD FS collector: ")
      (snd (nc pdh.CounterTypeRaw "AD FS" [])) /\
  (forall cause target,
     snd (nc pdh.CounterTypeRaw "AD FS" []) = Some cause ->
     errors_Is cause target = true ->
     exists e, snd (Build c nc) = Some e /\ Unwrap e = Some cause /\
               errors_Is e target = true) /\
  (forall nc',
     nc' pdh.CounterTypeRaw "AD FS" [] = nc pdh.CounterTypeRaw "AD FS" [] ->
     Build c nc' = Build c nc).
Proof.
  split; [|split; [|split]].
  - unfold Build. destruct (nc _ _ _) as [q [e|]]; reflexivity.
  - unfold Build. destruct (nc _ _ _) as [q [e|]]; reflexivity.
  - intros cause target Hc His. unfold Build. destruct (nc _ _ _) as [q e].
    simpl in Hc. subst e. eexists. split; [reflexivity|]. split; [reflexivity|].
    apply errors_Is_wrap, His.
  - intros nc' H. unfold Build. rewrite H. reflexivity.
Qed.

Lemma Build_fails_as_NewCollector_does_witness :
  exists e,
    snd (Build (New None) host_missing) = Some e /\
    Unwrap e = Some (sentinel CounterObjectUnavailable) /\
    errors_Is e (sentinel CounterObjectUnavailable) = true.
Proof.
  exact (proj1 (proj2 (proj2 (Build_fails_as_NewCollector_does (New None)
                                host_missing)))
           (sentinel CounterObjectUnavailable)
           (sentinel CounterObjectUnavailable) eq_refl eq_refl).
Defined.


(** ** Further properties of [Collect] *)

Lemma Must_unusable d vt v :
  usable d = false -> MustNewConstMetric d vt v [] = Panicked.
Proof.
  unfold usable, MustNewConstMetric, NewConstMetric.
  destruct d as [d|]; [|reflexivity].
  destruct (err d); [reflexivity|].
  destruct (variableLabels d); [discriminate | reflexivity].
Qed.

Lemma sendAll_Panicked table r rest :
  forall ch,
    sendAll table (r :: rest) ch = Panicked <->
    forallb usable (map fst table) = false.
Proof.
  induction table as [|[d value] tl IH]; intros ch; simpl.
  - split; discriminate.
  - destruct (usable d) eqn:Hd.
    + destruct (Must_usable d CounterValue (value r) Hd) as [m ->]. simpl.
      apply IH.
    + rewrite (Must_unusable d CounterValue (value r) Hd). simpl.
      split; reflexivity.
Qed.

Lemma forallb_Permutation {A : Type} (f : A -> bool) (l l' : list A) :
  Permutation l l' -> forallb f l = forallb f l'.
Proof.
  induction 1; simpl; try congruence.
  destruct (f x), (f y); reflexivity.
Qed.

(** X4. A cycle panics exactly when the acquisition layer delivers at least
    one record without an error and some descriptor field of the collector
    is [nil] or not accepted by [MustNewConstMetric]; so it panics on a
    collector fresh from [New] or [NewWithFlags], on which [Build] never
    ran, as soon as records arrive. *)
Theorem Collect_panics_exactly_when pow c collected ch :
  (Collect pow c collected ch = Panicked <->
   snd collected = None /\ fst collected <> [] /\
   forallb usable (descriptors c) = false) /\
  (forall cfg r rest, Collect pow (New cfg) (r :: rest, None) ch = Panicked) /\
  (forall r rest, Collect pow NewWithFlags (r :: rest, None) ch = Panicked).
Proof.
  split; [|split; intros; reflexivity].
  rewrite Collect_emission.
  rewrite <- (forallb_Permutation usable _ _ (emission_covers_descriptors pow c)).
  destruct collected as [[|r rest] [cause|]]; cbn [fst snd].
  - split; [discriminate | intros (H & _); discriminate].
  - split; [discriminate | intros (_ & H & _); contradiction].
  - split; [discriminate | intros (H & _); discriminate].
  - rewrite <- (sendAll_Panicked (emission pow c) r rest ch).
    destruct (sendAll _ _ _); simpl; split.
    + discriminate.
    + intros (_ & _ & H); discriminate.
    + intros _. repeat split. discriminate.
    + reflexivity.
Qed.

(** X5. Whenever a cycle returns, with or without an error, the collector
    holds what the acquisition layer left in [c.perfDataObject] this cycle,
    and its config, its perf-data collector and its 43 descriptors are the
    ones it had. *)
Theorem Collect_stores_only_the_records pow c collected ch c' oe ch' :
  Collect pow c collected ch = Returned (c', oe, ch') ->
  c' = set_perfDataObject c (fst collected) /\
  perfDataObject c' = fst collected /\
  config c' = config c /\
  perfDataCollector c' = perfDataCollector c /\
  descriptors c' = descriptors c.
Proof.
  rewrite Collect_emission. intros H.
  assert (Hc : c' = set_perfDataObject c (fst collected)).
  { destruct collected as [[|r rest] [cause|]]; cbn [fst snd] in H;
      try (injection H as <- _ _; reflexivity).
    apply bind_Returned in H as (ch1 & _ & H). injection H as <- _ _.
    reflexivity. }
  subst c'. repeat split.
Qed.

Lemma Collect_stores_only_the_records_witness :
  exists c' oe ch',
    Collect pow_1e_8 built_collector
      ([record_42], Some (sentinel TransientCollectionError)) [] =
      Returned (c', oe, ch') /\
    perfDataObject c' = [record_42].
Proof.
  do 3 eexists. split; [reflexivity|].
  exact (proj1 (proj2 (Collect_stores_only_the_records pow_1e_8 built_collector
                         ([record_42], Some (sentinel TransientCollectionError))
                         [] _ _ _ eq_refl))).
Defined.

(** X6. The error of a cycle is the cause wrapped under "failed to collect
    ADFS metrics: ": the acquisition layer's error when it returned one,
    even if it delivered records as well, and [ErrNoDataUnexpected] when
    it returned none and delivered no record. *)
Theorem Collect_error_wraps_the_cause pow c collected ch c' e ch' :
  Collect pow c collected ch = Returned (c', Some e, ch') ->
  e = fmt_Errorf_w "failed to collect ADFS metrics: "
        match snd collected with
        | Some cause => cause
        | None => types.ErrNoDataUnexpected
        end /\
  Unwrap e = Some match snd collected with
                  | Some cause => cause
                  | None => types.ErrNoDataUnexpected
                  end /\
  (snd collected = None -> fst collected = []).
Proof.
  rewrite Collect_emission.
  destruct collected as [[|r rest] [cause|]]; cbn [fst snd]; intros H;
    try (injection H as _ <- _; repeat split; intros; discriminate).
  apply bind_Returned in H as (ch1 & _ & H). discriminate.
Qed.

Lemma Collect_error_wraps_the_cause_witness :
  exists c' e ch',
    Collect pow_1e_8 built_collector
      ([record_42], Some (sentinel TransientCollectionError)) [] =
      Returned (c', Some e, ch') /\
    Unwrap e = Some (sentinel TransientCollectionError).
Proof.
  do 3 eexists. split; [reflexivity|].
  exact (proj1 (proj2 (Collect_error_wraps_the_cause pow_1e_8 built_collector
                         ([record_42], Some (sentinel TransientCollectionError))
                         [] _ _ _ eq_refl))).
Defined.

Lemma usable_sent (ms : list Metric) :
  forallb usable (map (fun m => Some (desc m)) ms) = true ->
  Forall (fun m => err (desc m) = None /\ variableLabels (desc m) = []) ms.
Proof.
  induction ms as [|m ms IH]; simpl; intros H; constructor.
  - apply andb_true_iff in H as [H _].
    destruct (err (desc m)); [discriminate|].
    destruct (variableLabels (desc m)); [auto | discriminate].
  - apply IH. apply andb_true_iff in H as [_ H]. exact H.
Qed.

(** X7. On a built collector the metrics of one successful cycle have
    pairwise distinct names and carry no labels: no label value is given
    and no descriptor declares a variable label or carries an error. *)
Theorem cycle_has_distinct_unlabelled_metrics pow c nc r rest ch :
  exists ms,
    Collect pow (fst (Build c nc)) (r :: rest, None) ch =
      Returned (set_perfDataObject (fst (Build c nc)) (r :: rest), None,
                ch ++ ms) /\
    NoDup (map (fun m => fqName (desc m)) ms) /\
    Forall (fun m => labelValues m = [] /\ variableLabels (desc m) = [] /\
                     err (desc m) = None) ms.
Proof.
  destruct (Collect_built pow c nc r rest ch) as (ms & HC & Hd & Hnv & Ht).
  exists ms. split; [exact HC|]. split.
  - replace (map (fun m => fqName (desc m)) ms)
      with (map fst (map (fun m => (fqName (desc m), val m)) ms))
      by (rewrite map_map; reflexivity).
    rewrite Hnv, map_map. cbn [fst].
    apply (NoDup_by_nodup string_dec). vm_compute. reflexivity.
  - pose proof (Build_usable pow c nc) as Hu. rewrite <- Hd in Hu.
    apply usable_sent in Hu. rewrite Forall_forall in *.
    intros m Hin. destruct (Ht m Hin) as [_ Hl]. destruct (Hu m Hin). auto.
Qed.


(** X9. [Close] returns no error and touches nothing but the perf-data
    collector: config, records held and descriptors stay, so that a cycle
    on the closed collector, given the same answer of the acquisition
    layer, returns the same error and sink as on the open one. *)
Theorem Close_touches_only_the_perf_data_collector pow c released collected ch :
  let closed := fst (fst (Close c released)) in
  snd (fst (Close c released)) = None /\
  config closed = config c /\
  perfDataObject closed = perfDataObject c /\
  descriptors closed = descriptors c /\
  match Collect pow c collected ch, Collect pow closed collected ch with
  | Returned (_, oe, ch1), Returned (_, oe', ch2) => oe = oe' /\ ch1 = ch2
  | Panicked, Panicked => True
  | _, _ => False
  end.
Proof.
  cbv zeta. unfold Close. destruct (pdh.Close _ _) as [q released'].
  cbn [fst snd]. repeat split.
  rewrite !Collect_emission.
  change (emission pow (set_perfDataCollector c q)) with (emission pow c).
  destruct collected as [[|r rest] [cause|]]; cbn [fst snd]; auto.
  destruct (sendAll _ _ _); simpl; auto.
Qed.

(** X10. The metrics of a successful cycle on a built collector are a
    function of the first record alone: two collectors, whatever they held
    when [Build] ran and whatever the host answered to it, send the same
    metrics for the same first record. *)
Theorem built_collectors_send_alike pow c1 nc1 c2 nc2 r rest1 rest2 ch :
  exists ms,
    Collect pow (fst (Build c1 nc1)) (r :: rest1, None) ch =
      Returned (set_perfDataObject (fst (Build c1 nc1)) (r :: rest1), None,
                ch ++ ms) /\
    Collect pow (fst (Build c2 nc2)) (r :: rest2, None) ch =
      Returned (set_perfDataObject (fst (Build c2 nc2)) (r :: rest2), None,
                ch ++ ms) /\
    length ms = 43.
Proof.
  destruct (Collect_built pow c1 nc1 r rest1 ch) as (ms & HC & Hd & _).
  exists ms. split; [exact HC|]. split.
  - assert (He : emission pow (fst (Build c2 nc2)) =
                 emission pow (fst (Build c1 nc1))).
    { unfold Build.
      destruct (nc1 _ _ _) as [q1 [e1|]]; destruct (nc2 _ _ _) as [q2 [e2|]];
        reflexivity. }
    rewrite Collect_emission in HC |- *. cbn [fst snd] in HC |- *.
    rewrite He, (sendAll_first_only _ r rest2 rest1).
    destruct (sendAll _ _ _) as [ch1|]; simpl in *; [|discriminate].
    injection HC as ->. reflexivity.
  - apply (f_equal (@length _)) in Hd. rewrite !length_map in Hd. exact Hd.
Qed.

(** X11. [Config] has no field, so a collector fresh from [New] is the same
    whatever config was passed, [nil] included, and [NewWithFlags] builds
    that same collector; [Build] on it succeeds or fails with the host
    alone. *)
Theorem fresh_collectors_are_alike (cfg : option Config) nc :
  New cfg = New None /\
  NewWithFlags = New None /\
  config (New cfg) = ConfigDefaults /\
  Build (New cfg) nc = Build NewWithFlags nc.
Proof.
  destruct cfg as [[]|]; repeat split.
Qed.
